(** * LoyalBooks downloader ([app.py]): a shallow embedding and its properties

    The script scrapes the paginated "Top 100" catalog of an audiobook
    site, lets the user pick a book, fetches the book's RSS feed and hands
    every enclosure URL to an aria2 daemon.

    Layout of this file:
    - [Unicode], [Utf8]: character tables and the reading of UTF-8;
    - [Py]: the Python [str] builtins the script calls
      ([strip], [lower], [split], [replace], [in], [int], [isdigit]);
    - [Bs4]: the BeautifulSoup tree and the searches the script performs;
    - [ET]: the ElementTree element and its [find]/[findall]/[get];
    - [App]: the functions of [app.py], effects threaded through a small
      state-and-exception monad;
    - the properties.

    A Python [str] is a [string] holding its UTF-8 bytes; the methods
    that look at character classes ([strip], [lower], [isdigit], [int])
    read it character by character ([Utf8.decode]) against the tables of
    [Unicode]. Python integers are [Z]; dictionaries with optional keys
    are [gmap]. *)

From Stdlib Require Import ZArith NArith Ascii String Decimal DecimalString
  DecimalPos DecimalN Lia.
From stdpp Require Import base option list strings gmap.

Local Open Scope string_scope.
Local Open Scope list_scope.

(* ===================================================================== *)
(** * Character data *)
(* ===================================================================== *)

(** The character classes and the lower-case mapping that the [str]
    methods consult, by code point (Unicode 14.0, the version of CPython
    3.11). A table is a list of inclusive ranges. *)
Module Unicode.

Definition in_ranges (rs : list (N * N)) (n : N) : bool :=
  existsb (fun r => (fst r <=? n)%N && (n <=? snd r)%N) rs.

(** [str.isspace] *)
Definition space_ranges : list (N * N) :=
  [
   (9, 13); (28, 32); (133, 133); (160, 160); (5760, 5760); (8192, 8202);
   (8232, 8233); (8239, 8239); (8287, 8287); (12288, 12288)
  ]%N.

(** [str.isdigit] *)
Definition digit_ranges : list (N * N) :=
  [
   (48, 57); (178, 179); (185, 185); (1632, 1641); (1776, 1785); (1984, 1993);
   (2406, 2415); (2534, 2543); (2662, 2671); (2790, 2799); (2918, 2927); (3046, 3055);
   (3174, 3183); (3302, 3311); (3430, 3439); (3558, 3567); (3664, 3673); (3792, 3801);
   (3872, 3881); (4160, 4169); (4240, 4249); (4969, 4977); (6112, 6121); (6160, 6169);
   (6470, 6479); (6608, 6618); (6784, 6793); (6800, 6809); (6992, 7001); (7088, 7097);
   (7232, 7241); (7248, 7257); (8304, 8304); (8308, 8313); (8320, 8329); (9312, 9320);
   (9332, 9340); (9352, 9360); (9450, 9450); (9461, 9469); (9471, 9471); (10102, 10110);
   (10112, 10120); (10122, 10130); (42528, 42537); (43216, 43225); (43264, 43273); (43472, 43481);
   (43504, 43513); (43600, 43609); (44016, 44025); (65296, 65305); (66720, 66729); (68160, 68163);
   (68912, 68921); (69216, 69224); (69714, 69722); (69734, 69743); (69872, 69881); (69942, 69951);
   (70096, 70105); (70384, 70393); (70736, 70745); (70864, 70873); (71248, 71257); (71360, 71369);
   (71472, 71481); (71904, 71913); (72016, 72025); (72784, 72793); (73040, 73049); (73120, 73129);
   (92768, 92777); (92864, 92873); (93008, 93017); (120782, 120831); (123200, 123209); (123632, 123641);
   (125264, 125273); (127232, 127242); (130032, 130041)
  ]%N.

(** [str.isdecimal]: every range is a whole number of runs 0..9. *)
Definition decimal_ranges : list (N * N) :=
  [
   (48, 57); (1632, 1641); (1776, 1785); (1984, 1993); (2406, 2415); (2534, 2543);
   (2662, 2671); (2790, 2799); (2918, 2927); (3046, 3055); (3174, 3183); (3302, 3311);
   (3430, 3439); (3558, 3567); (3664, 3673); (3792, 3801); (3872, 3881); (4160, 4169);
   (4240, 4249); (6112, 6121); (6160, 6169); (6470, 6479); (6608, 6617); (6784, 6793);
   (6800, 6809); (6992, 7001); (7088, 7097); (7232, 7241); (7248, 7257); (42528, 42537);
   (43216, 43225); (43264, 43273); (43472, 43481); (43504, 43513); (43600, 43609); (44016, 44025);
   (65296, 65305); (66720, 66729); (68912, 68921); (69734, 69743); (69872, 69881); (69942, 69951);
   (70096, 70105); (70384, 70393); (70736, 70745); (70864, 70873); (71248, 71257); (71360, 71369);
   (71472, 71481); (71904, 71913); (72016, 72025); (72784, 72793); (73040, 73049); (73120, 73129);
   (92768, 92777); (92864, 92873); (93008, 93017); (120782, 120831); (123200, 123209); (123632, 123641);
   (125264, 125273); (130032, 130041)
  ]%N.

(** Cased characters that are not case-ignorable. *)
Definition cased_ranges : list (N * N) :=
  [
   (65, 90); (97, 122); (170, 170); (181, 181); (186, 186); (192, 214);
   (216, 246); (248, 442); (444, 447); (452, 659); (661, 687); (880, 883);
   (886, 887); (891, 893); (895, 895); (902, 902); (904, 906); (908, 908);
   (910, 929); (931, 1013); (1015, 1153); (1162, 1327); (1329, 1366); (1376, 1416);
   (4256, 4293); (4295, 4295); (4301, 4301); (4304, 4346); (4349, 4351); (5024, 5109);
   (5112, 5117); (7296, 7304); (7312, 7354); (7357, 7359); (7424, 7467); (7531, 7543);
   (7545, 7578); (7680, 7957); (7960, 7965); (7968, 8005); (8008, 8013); (8016, 8023);
   (8025, 8025); (8027, 8027); (8029, 8029); (8031, 8061); (8064, 8116); (8118, 8124);
   (8126, 8126); (8130, 8132); (8134, 8140); (8144, 8147); (8150, 8155); (8160, 8172);
   (8178, 8180); (8182, 8188); (8450, 8450); (8455, 8455); (8458, 8467); (8469, 8469);
   (8473, 8477); (8484, 8484); (8486, 8486); (8488, 8488); (8490, 8493); (8495, 8500);
   (8505, 8505); (8508, 8511); (8517, 8521); (8526, 8526); (8544, 8575); (8579, 8580);
   (9398, 9449); (11264, 11387); (11390, 11492); (11499, 11502); (11506, 11507); (11520, 11557);
   (11559, 11559); (11565, 11565); (42560, 42605); (42624, 42651); (42786, 42863); (42865, 42887);
   (42891, 42894); (42896, 42954); (42960, 42961); (42963, 42963); (42965, 42969); (42997, 42998);
   (43002, 43002); (43824, 43866); (43872, 43880); (43888, 43967); (64256, 64262); (64275, 64279);
   (65313, 65338); (65345, 65370); (66560, 66639); (66736, 66771); (66776, 66811); (66928, 66938);
   (66940, 66954); (66956, 66962); (66964, 66965); (66967, 66977); (66979, 66993); (66995, 67001);
   (67003, 67004); (68736, 68786); (68800, 68850); (71840, 71903); (93760, 93823); (119808, 119892);
   (119894, 119964); (119966, 119967); (119970, 119970); (119973, 119974); (119977, 119980); (119982, 119993);
   (119995, 119995); (119997, 120003); (120005, 120069); (120071, 120074); (120077, 120084); (120086, 120092);
   (120094, 120121); (120123, 120126); (120128, 120132); (120134, 120134); (120138, 120144); (120146, 120485);
   (120488, 120512); (120514, 120538); (120540, 120570); (120572, 120596); (120598, 120628); (120630, 120654);
   (120656, 120686); (120688, 120712); (120714, 120744); (120746, 120770); (120772, 120779); (122624, 122633);
   (122635, 122654); (125184, 125251); (127280, 127305); (127312, 127337); (127344, 127369)
  ]%N.

(** Case-ignorable characters. *)
Definition ignorable_ranges : list (N * N) :=
  [
   (39, 39); (46, 46); (58, 58); (94, 94); (96, 96); (168, 168);
   (173, 173); (175, 175); (180, 180); (183, 184); (688, 879); (884, 885);
   (890, 890); (900, 901); (903, 903); (1155, 1161); (1369, 1369); (1375, 1375);
   (1425, 1469); (1471, 1471); (1473, 1474); (1476, 1477); (1479, 1479); (1524, 1524);
   (1536, 1541); (1552, 1562); (1564, 1564); (1600, 1600); (1611, 1631); (1648, 1648);
   (1750, 1757); (1759, 1768); (1770, 1773); (1807, 1807); (1809, 1809); (1840, 1866);
   (1958, 1968); (2027, 2037); (2042, 2042); (2045, 2045); (2070, 2093); (2137, 2139);
   (2184, 2184); (2192, 2193); (2200, 2207); (2249, 2306); (2362, 2362); (2364, 2364);
   (2369, 2376); (2381, 2381); (2385, 2391); (2402, 2403); (2417, 2417); (2433, 2433);
   (2492, 2492); (2497, 2500); (2509, 2509); (2530, 2531); (2558, 2558); (2561, 2562);
   (2620, 2620); (2625, 2626); (2631, 2632); (2635, 2637); (2641, 2641); (2672, 2673);
   (2677, 2677); (2689, 2690); (2748, 2748); (2753, 2757); (2759, 2760); (2765, 2765);
   (2786, 2787); (2810, 2815); (2817, 2817); (2876, 2876); (2879, 2879); (2881, 2884);
   (2893, 2893); (2901, 2902); (2914, 2915); (2946, 2946); (3008, 3008); (3021, 3021);
   (3072, 3072); (3076, 3076); (3132, 3132); (3134, 3136); (3142, 3144); (3146, 3149);
   (3157, 3158); (3170, 3171); (3201, 3201); (3260, 3260); (3263, 3263); (3270, 3270);
   (3276, 3277); (3298, 3299); (3328, 3329); (3387, 3388); (3393, 3396); (3405, 3405);
   (3426, 3427); (3457, 3457); (3530, 3530); (3538, 3540); (3542, 3542); (3633, 3633);
   (3636, 3642); (3654, 3662); (3761, 3761); (3764, 3772); (3782, 3782); (3784, 3789);
   (3864, 3865); (3893, 3893); (3895, 3895); (3897, 3897); (3953, 3966); (3968, 3972);
   (3974, 3975); (3981, 3991); (3993, 4028); (4038, 4038); (4141, 4144); (4146, 4151);
   (4153, 4154); (4157, 4158); (4184, 4185); (4190, 4192); (4209, 4212); (4226, 4226);
   (4229, 4230); (4237, 4237); (4253, 4253); (4348, 4348); (4957, 4959); (5906, 5908);
   (5938, 5939); (5970, 5971); (6002, 6003); (6068, 6069); (6071, 6077); (6086, 6086);
   (6089, 6099); (6103, 6103); (6109, 6109); (6155, 6159); (6211, 6211); (6277, 6278);
   (6313, 6313); (6432, 6434); (6439, 6440); (6450, 6450); (6457, 6459); (6679, 6680);
   (6683, 6683); (6742, 6742); (6744, 6750); (6752, 6752); (6754, 6754); (6757, 6764);
   (6771, 6780); (6783, 6783); (6823, 6823); (6832, 6862); (6912, 6915); (6964, 6964);
   (6966, 6970); (6972, 6972); (6978, 6978); (7019, 7027); (7040, 7041); (7074, 7077);
   (7080, 7081); (7083, 7085); (7142, 7142); (7144, 7145); (7149, 7149); (7151, 7153);
   (7212, 7219); (7222, 7223); (7288, 7293); (7376, 7378); (7380, 7392); (7394, 7400);
   (7405, 7405); (7412, 7412); (7416, 7417); (7468, 7530); (7544, 7544); (7579, 7679);
   (8125, 8125); (8127, 8129); (8141, 8143); (8157, 8159); (8173, 8175); (8189, 8190);
   (8203, 8207); (8216, 8217); (8228, 8228); (8231, 8231); (8234, 8238); (8288, 8292);
   (8294, 8303); (8305, 8305); (8319, 8319); (8336, 8348); (8400, 8432); (11388, 11389);
   (11503, 11505); (11631, 11631); (11647, 11647); (11744, 11775); (11823, 11823); (12293, 12293);
   (12330, 12333); (12337, 12341); (12347, 12347); (12441, 12446); (12540, 12542); (40981, 40981);
   (42232, 42237); (42508, 42508); (42607, 42610); (42612, 42621); (42623, 42623); (42652, 42655);
   (42736, 42737); (42752, 42785); (42864, 42864); (42888, 42890); (42994, 42996); (43000, 43001);
   (43010, 43010); (43014, 43014); (43019, 43019); (43045, 43046); (43052, 43052); (43204, 43205);
   (43232, 43249); (43263, 43263); (43302, 43309); (43335, 43345); (43392, 43394); (43443, 43443);
   (43446, 43449); (43452, 43453); (43471, 43471); (43493, 43494); (43561, 43566); (43569, 43570);
   (43573, 43574); (43587, 43587); (43596, 43596); (43632, 43632); (43644, 43644); (43696, 43696);
   (43698, 43700); (43703, 43704); (43710, 43711); (43713, 43713); (43741, 43741); (43756, 43757);
   (43763, 43764); (43766, 43766); (43867, 43871); (43881, 43883); (44005, 44005); (44008, 44008);
   (44013, 44013); (64286, 64286); (64434, 64450); (65024, 65039); (65043, 65043); (65056, 65071);
   (65106, 65106); (65109, 65109); (65279, 65279); (65287, 65287); (65294, 65294); (65306, 65306);
   (65342, 65342); (65344, 65344); (65392, 65392); (65438, 65439); (65507, 65507); (65529, 65531);
   (66045, 66045); (66272, 66272); (66422, 66426); (67456, 67461); (67463, 67504); (67506, 67514);
   (68097, 68099); (68101, 68102); (68108, 68111); (68152, 68154); (68159, 68159); (68325, 68326);
   (68900, 68903); (69291, 69292); (69446, 69456); (69506, 69509); (69633, 69633); (69688, 69702);
   (69744, 69744); (69747, 69748); (69759, 69761); (69811, 69814); (69817, 69818); (69821, 69821);
   (69826, 69826); (69837, 69837); (69888, 69890); (69927, 69931); (69933, 69940); (70003, 70003);
   (70016, 70017); (70070, 70078); (70089, 70092); (70095, 70095); (70191, 70193); (70196, 70196);
   (70198, 70199); (70206, 70206); (70367, 70367); (70371, 70378); (70400, 70401); (70459, 70460);
   (70464, 70464); (70502, 70508); (70512, 70516); (70712, 70719); (70722, 70724); (70726, 70726);
   (70750, 70750); (70835, 70840); (70842, 70842); (70847, 70848); (70850, 70851); (71090, 71093);
   (71100, 71101); (71103, 71104); (71132, 71133); (71219, 71226); (71229, 71229); (71231, 71232);
   (71339, 71339); (71341, 71341); (71344, 71349); (71351, 71351); (71453, 71455); (71458, 71461);
   (71463, 71467); (71727, 71735); (71737, 71738); (71995, 71996); (71998, 71998); (72003, 72003);
   (72148, 72151); (72154, 72155); (72160, 72160); (72193, 72202); (72243, 72248); (72251, 72254);
   (72263, 72263); (72273, 72278); (72281, 72283); (72330, 72342); (72344, 72345); (72752, 72758);
   (72760, 72765); (72767, 72767); (72850, 72871); (72874, 72880); (72882, 72883); (72885, 72886);
   (73009, 73014); (73018, 73018); (73020, 73021); (73023, 73029); (73031, 73031); (73104, 73105);
   (73109, 73109); (73111, 73111); (73459, 73460); (78896, 78904); (92912, 92916); (92976, 92982);
   (92992, 92995); (94031, 94031); (94095, 94111); (94176, 94177); (94179, 94180); (110576, 110579);
   (110581, 110587); (110589, 110590); (113821, 113822); (113824, 113827); (118528, 118573); (118576, 118598);
   (119143, 119145); (119155, 119170); (119173, 119179); (119210, 119213); (119362, 119364); (121344, 121398);
   (121403, 121452); (121461, 121461); (121476, 121476); (121499, 121503); (121505, 121519); (122880, 122886);
   (122888, 122904); (122907, 122913); (122915, 122916); (122918, 122922); (123184, 123197); (123566, 123566);
   (123628, 123631); (125136, 125142); (125252, 125259); (127995, 127999); (917505, 917505); (917536, 917631);
   (917760, 917999)
  ]%N.

(** The simple lower-case mapping: in [(lo, hi, step, target)] the code
    points [lo], [lo + step], ..., [hi] map to [target], [target + step], ... *)
Definition lower_runs : list (N * N * N * N) :=
  [
   (65, 90, 1, 97); (192, 214, 1, 224); (216, 222, 1, 248); (256, 302, 2, 257);
   (306, 310, 2, 307); (313, 327, 2, 314); (330, 374, 2, 331); (376, 376, 1, 255);
   (377, 381, 2, 378); (385, 385, 1, 595); (386, 388, 2, 387); (390, 390, 1, 596);
   (391, 391, 1, 392); (393, 394, 1, 598); (395, 395, 1, 396); (398, 398, 1, 477);
   (399, 399, 1, 601); (400, 400, 1, 603); (401, 401, 1, 402); (403, 403, 1, 608);
   (404, 404, 1, 611); (406, 406, 1, 617); (407, 407, 1, 616); (408, 408, 1, 409);
   (412, 412, 1, 623); (413, 413, 1, 626); (415, 415, 1, 629); (416, 420, 2, 417);
   (422, 422, 1, 640); (423, 423, 1, 424); (425, 425, 1, 643); (428, 428, 1, 429);
   (430, 430, 1, 648); (431, 431, 1, 432); (433, 434, 1, 650); (435, 437, 2, 436);
   (439, 439, 1, 658); (440, 440, 1, 441); (444, 444, 1, 445); (452, 452, 1, 454);
   (453, 453, 1, 454); (455, 455, 1, 457); (456, 456, 1, 457); (458, 458, 1, 460);
   (459, 475, 2, 460); (478, 494, 2, 479); (497, 497, 1, 499); (498, 500, 2, 499);
   (502, 502, 1, 405); (503, 503, 1, 447); (504, 542, 2, 505); (544, 544, 1, 414);
   (546, 562, 2, 547); (570, 570, 1, 11365); (571, 571, 1, 572); (573, 573, 1, 410);
   (574, 574, 1, 11366); (577, 577, 1, 578); (579, 579, 1, 384); (580, 580, 1, 649);
   (581, 581, 1, 652); (582, 590, 2, 583); (880, 882, 2, 881); (886, 886, 1, 887);
   (895, 895, 1, 1011); (902, 902, 1, 940); (904, 906, 1, 941); (908, 908, 1, 972);
   (910, 911, 1, 973); (913, 929, 1, 945); (931, 939, 1, 963); (975, 975, 1, 983);
   (984, 1006, 2, 985); (1012, 1012, 1, 952); (1015, 1015, 1, 1016); (1017, 1017, 1, 1010);
   (1018, 1018, 1, 1019); (1021, 1023, 1, 891); (1024, 1039, 1, 1104); (1040, 1071, 1, 1072);
   (1120, 1152, 2, 1121); (1162, 1214, 2, 1163); (1216, 1216, 1, 1231); (1217, 1229, 2, 1218);
   (1232, 1326, 2, 1233); (1329, 1366, 1, 1377); (4256, 4293, 1, 11520); (4295, 4295, 1, 11559);
   (4301, 4301, 1, 11565); (5024, 5103, 1, 43888); (5104, 5109, 1, 5112); (7312, 7354, 1, 4304);
   (7357, 7359, 1, 4349); (7680, 7828, 2, 7681); (7838, 7838, 1, 223); (7840, 7934, 2, 7841);
   (7944, 7951, 1, 7936); (7960, 7965, 1, 7952); (7976, 7983, 1, 7968); (7992, 7999, 1, 7984);
   (8008, 8013, 1, 8000); (8025, 8031, 2, 8017); (8040, 8047, 1, 8032); (8072, 8079, 1, 8064);
   (8088, 8095, 1, 8080); (8104, 8111, 1, 8096); (8120, 8121, 1, 8112); (8122, 8123, 1, 8048);
   (8124, 8124, 1, 8115); (8136, 8139, 1, 8050); (8140, 8140, 1, 8131); (8152, 8153, 1, 8144);
   (8154, 8155, 1, 8054); (8168, 8169, 1, 8160); (8170, 8171, 1, 8058); (8172, 8172, 1, 8165);
   (8184, 8185, 1, 8056); (8186, 8187, 1, 8060); (8188, 8188, 1, 8179); (8486, 8486, 1, 969);
   (8490, 8490, 1, 107); (8491, 8491, 1, 229); (8498, 8498, 1, 8526); (8544, 8559, 1, 8560);
   (8579, 8579, 1, 8580); (9398, 9423, 1, 9424); (11264, 11311, 1, 11312); (11360, 11360, 1, 11361);
   (11362, 11362, 1, 619); (11363, 11363, 1, 7549); (11364, 11364, 1, 637); (11367, 11371, 2, 11368);
   (11373, 11373, 1, 593); (11374, 11374, 1, 625); (11375, 11375, 1, 592); (11376, 11376, 1, 594);
   (11378, 11378, 1, 11379); (11381, 11381, 1, 11382); (11390, 11391, 1, 575); (11392, 11490, 2, 11393);
   (11499, 11501, 2, 11500); (11506, 11506, 1, 11507); (42560, 42604, 2, 42561); (42624, 42650, 2, 42625);
   (42786, 42798, 2, 42787); (42802, 42862, 2, 42803); (42873, 42875, 2, 42874); (42877, 42877, 1, 7545);
   (42878, 42886, 2, 42879); (42891, 42891, 1, 42892); (42893, 42893, 1, 613); (42896, 42898, 2, 42897);
   (42902, 42920, 2, 42903); (42922, 42922, 1, 614); (42923, 42923, 1, 604); (42924, 42924, 1, 609);
   (42925, 42925, 1, 620); (42926, 42926, 1, 618); (42928, 42928, 1, 670); (42929, 42929, 1, 647);
   (42930, 42930, 1, 669); (42931, 42931, 1, 43859); (42932, 42946, 2, 42933); (42948, 42948, 1, 42900);
   (42949, 42949, 1, 642); (42950, 42950, 1, 7566); (42951, 42953, 2, 42952); (42960, 42960, 1, 42961);
   (42966, 42968, 2, 42967); (42997, 42997, 1, 42998); (65313, 65338, 1, 65345); (66560, 66599, 1, 66600);
   (66736, 66771, 1, 66776); (66928, 66938, 1, 66967); (66940, 66954, 1, 66979); (66956, 66962, 1, 66995);
   (66964, 66965, 1, 67003); (68736, 68786, 1, 68800); (71840, 71871, 1, 71872); (93760, 93791, 1, 93792);
   (125184, 125217, 1, 125218)
  ]%N.

Definition is_space (n : N) : bool := in_ranges space_ranges n.
Definition is_digit (n : N) : bool := in_ranges digit_ranges n.
Definition is_cased (n : N) : bool := in_ranges cased_ranges n.
Definition is_ignorable (n : N) : bool := in_ranges ignorable_ranges n.

Fixpoint find_decimal (rs : list (N * N)) (n : N) : option N :=
  match rs with
  | [] => None
  | (lo, hi) :: rest =>
      if (lo <=? n)%N && (n <=? hi)%N then Some ((n - lo) mod 10)%N
      else find_decimal rest n
  end.

(** The value of a decimal digit. *)
Definition decimal (n : N) : option N := find_decimal decimal_ranges n.

Fixpoint find_lower (runs : list (N * N * N * N)) (n : N) : option N :=
  match runs with
  | [] => None
  | (lo, hi, step, target) :: rest =>
      if (lo <=? n)%N && (n <=? hi)%N && ((n - lo) mod step =? 0)%N
      then Some (target + (n - lo))%N
      else find_lower rest n
  end.

(** The full lower-case mapping of one character, when it changes the
    character. Capital sigma is treated by [Py.lower]. *)
Definition to_lower (n : N) : option (list N) :=
  if (n =? 304)%N then Some [105; 775]%N
  else (fun t => [t]) <$> find_lower lower_runs n.

End Unicode.

(* ===================================================================== *)
(** * Text as UTF-8 *)
(* ===================================================================== *)

(** A [string] holds the UTF-8 bytes of a Python [str]. [decode] cuts it
    into characters, each with its code point and the bytes it was read
    from; a byte that starts no well-formed sequence is a character of
    its own with a code point no table knows. *)
Module Utf8.

Record uchar : Type := UChar { code : N; raw : string }.

Definition byte (n : N) : ascii := ascii_of_N n.

Definition is_cont (v : N) : bool := (128 <=? v)%N && (v <=? 191)%N.

(** Whether [v0 v1] is a well-formed two-byte sequence. *)
Definition valid2 (v0 v1 : N) : bool :=
  (194 <=? v0)%N && (v0 <=? 223)%N && is_cont v1.

(** Whether [v0 v1 v2] is a well-formed three-byte sequence. *)
Definition valid3 (v0 v1 v2 : N) : bool :=
  (224 <=? v0)%N && (v0 <=? 239)%N && is_cont v1 && is_cont v2
  && (if (v0 =? 224)%N then (160 <=? v1)%N else true)
  && (if (v0 =? 237)%N then (v1 <=? 159)%N else true).

(** Whether [v0 v1 v2 v3] is a well-formed four-byte sequence. *)
Definition valid4 (v0 v1 v2 v3 : N) : bool :=
  (240 <=? v0)%N && (v0 <=? 244)%N && is_cont v1 && is_cont v2 && is_cont v3
  && (if (v0 =? 240)%N then (144 <=? v1)%N else true)
  && (if (v0 =? 244)%N then (v1 <=? 143)%N else true).

Definition lone (b : ascii) : uchar :=
  UChar (56320 + N_of_ascii b) (String b EmptyString).

Fixpoint decode (s : string) : list uchar :=
  match s with
  | EmptyString => []
  | String b0 s1 =>
      let v0 := N_of_ascii b0 in
      if (v0 <? 128)%N then UChar v0 (String b0 EmptyString) :: decode s1
      else
        match s1 with
        | EmptyString => [lone b0]
        | String b1 s2 =>
            let v1 := N_of_ascii b1 in
            if valid2 v0 v1
            then UChar ((v0 - 192) * 64 + (v1 - 128))
                       (String b0 (String b1 EmptyString)) :: decode s2
            else
              match s2 with
              | EmptyString => lone b0 :: decode s1
              | String b2 s3 =>
                  let v2 := N_of_ascii b2 in
                  if valid3 v0 v1 v2
                  then UChar ((v0 - 224) * 4096 + (v1 - 128) * 64 + (v2 - 128))
                             (String b0 (String b1 (String b2 EmptyString)))
                         :: decode s3
                  else
                    match s3 with
                    | EmptyString => lone b0 :: decode s1
                    | String b3 s4 =>
                        let v3 := N_of_ascii b3 in
                        if valid4 v0 v1 v2 v3
                        then UChar ((v0 - 240) * 262144 + (v1 - 128) * 4096
                                    + (v2 - 128) * 64 + (v3 - 128))
                                   (String b0 (String b1 (String b2 (String b3 EmptyString))))
                               :: decode s4
                        else lone b0 :: decode s1
                    end
              end
        end
  end.

(** The bytes of a list of pieces, one after the other. *)
Fixpoint concat (pieces : list string) : string :=
  match pieces with
  | [] => EmptyString
  | p :: rest => p +:+ concat rest
  end.

Definition encode (us : list uchar) : string := concat (raw <$> us).

(** The UTF-8 bytes of one code point. *)
Definition encode_cp (n : N) : string :=
  if (n <? 128)%N then String (byte n) EmptyString
  else if (n <? 2048)%N then
    String (byte (192 + n / 64)) (String (byte (128 + n mod 64)) EmptyString)
  else if (n <? 65536)%N then
    String (byte (224 + n / 4096))
      (String (byte (128 + (n / 64) mod 64))
         (String (byte (128 + n mod 64)) EmptyString))
  else
    String (byte (240 + n / 262144))
      (String (byte (128 + (n / 4096) mod 64))
         (String (byte (128 + (n / 64) mod 64))
            (String (byte (128 + n mod 64)) EmptyString))).

End Utf8.

(* ===================================================================== *)
(** * Python [str] builtins *)
(* ===================================================================== *)

Module Py.
Import Utf8.

Definition is_space (u : uchar) : bool := Unicode.is_space (code u).

Fixpoint lstrip_chars (us : list uchar) : list uchar :=
  match us with
  | [] => []
  | u :: rest => if is_space u then lstrip_chars rest else us
  end.

Fixpoint rstrip_chars (us : list uchar) : list uchar :=
  match us with
  | [] => []
  | u :: rest =>
      match rstrip_chars rest with
      | [] => if is_space u then [] else [u]
      | r => u :: r
      end
  end.

(** [s.strip()] *)
Definition strip (s : string) : string :=
  encode (rstrip_chars (lstrip_chars (decode s))).

(** Whether a capital sigma followed by [rest] is at the end of a word:
    past the case-ignorable characters there is no cased character. *)
Fixpoint word_ends (rest : list uchar) : bool :=
  match rest with
  | [] => true
  | u :: rest' =>
      if Unicode.is_ignorable (code u) then word_ends rest'
      else negb (Unicode.is_cased (code u))
  end.

(** The lower-case form of every character. [after_cased] tells whether
    the last character before that is not case-ignorable is cased. *)
Fixpoint lower_chars (after_cased : bool) (us : list uchar) : list string :=
  match us with
  | [] => []
  | u :: rest =>
      (if (code u =? 931)%N
       then encode_cp (if after_cased && word_ends rest then 962 else 963)
       else match Unicode.to_lower (code u) with
            | Some targets => concat (encode_cp <$> targets)
            | None => raw u
            end)
      :: lower_chars (if Unicode.is_ignorable (code u) then after_cased
                      else Unicode.is_cased (code u)) rest
  end.

(** [s.lower()] *)
Definition lower (s : string) : string :=
  concat (lower_chars false (decode s)).

(** [sub in s] *)
Fixpoint contains (sub s : string) : bool :=
  String.prefix sub s ||
  match s with
  | EmptyString => false
  | String _ s' => contains sub s'
  end.

(** [s.split(sep)] for a non-empty [sep]: the fields between the leftmost
    non-overlapping occurrences of [sep]. [skip] counts the characters of
    an occurrence still to be passed over. *)
Fixpoint split_go (sep : string) (skip : nat) (s : string) : list string :=
  match s with
  | EmptyString => [EmptyString]
  | String c s' =>
      match skip with
      | S k => split_go sep k s'
      | O =>
          if String.prefix sep s
          then EmptyString :: split_go sep (String.length sep - 1) s'
          else match split_go sep 0 s' with
               | field :: fields => String c field :: fields
               | [] => [String c EmptyString]
               end
      end
  end.

Definition split (sep s : string) : list string := split_go sep 0 s.

(** [s.replace(old, new)] for a non-empty [old]. *)
Fixpoint replace_go (old new : string) (skip : nat) (s : string) : string :=
  match s with
  | EmptyString => EmptyString
  | String c s' =>
      match skip with
      | S k => replace_go old new k s'
      | O =>
          if String.prefix old s
          then new +:+ replace_go old new (String.length old - 1) s'
          else String c (replace_go old new 0 s')
      end
  end.

Definition replace (old new s : string) : string := replace_go old new 0 s.

(** [sep.join(fields)] *)
Definition join (sep : string) (fields : list string) : string :=
  String.concat sep fields.

Definition digit_val (c : ascii) : option N :=
  let n := nat_of_ascii c in
  if ((48 <=? n) && (n <=? 57))%nat then Some (N.of_nat (n - 48)) else None.

(** The digit part of an integer literal: decimal digits, single
    underscores allowed between digits only. [prev] tells whether the
    previous character was a digit. *)
Fixpoint parse_digits (acc : N) (prev : bool) (s : string) : option N :=
  match s with
  | EmptyString => if prev then Some acc else None
  | String c s' =>
      if Ascii.eqb c "_"
      then (if prev then parse_digits acc false s' else None)
      else match digit_val c with
           | Some d => parse_digits (10 * acc + d) true s'
           | None => None
           end
  end.

(** What [int] reads in place of one character: an ASCII character is
    kept, any other space becomes a blank, any other decimal digit its
    ASCII digit, and anything else a character no number contains. *)
Definition int_char (u : uchar) : ascii :=
  if (code u <? 128)%N then byte (code u)
  else if Unicode.is_space (code u) then " "%char
  else match Unicode.decimal (code u) with
       | Some d => byte (48 + d)
       | None => "?"%char
       end.

(** The blanks that [int] skips around the number: TAB..CR and SPACE. *)
Definition is_blank (c : ascii) : bool :=
  let n := nat_of_ascii c in
  ((9 <=? n) && (n <=? 13) || (n =? 32))%nat.

Fixpoint skip_blanks (s : string) : string :=
  match s with
  | EmptyString => EmptyString
  | String c s' => if is_blank c then skip_blanks s' else s
  end.

Fixpoint drop_trailing_blanks (s : string) : string :=
  match s with
  | EmptyString => EmptyString
  | String c s' =>
      match drop_trailing_blanks s' with
      | EmptyString => if is_blank c then EmptyString else String c EmptyString
      | r => String c r
      end
  end.

(** [int(s)] on a [str]; [None] stands for [ValueError]. Blanks around
    the number are skipped and one sign is accepted. The limit on the
    number of digits ([sys.set_int_max_str_digits]: 4300 by default from
    Python 3.11 on, none before, none when set to 0) is a setting of the
    interpreter and not part of this function: [int_default] below is
    [int] under the default limit, and the two differ on numerals of more
    than [max_str_digits] digits only. A statement that lets [int] read
    an arbitrary numeral bounds its length, so that it holds with and
    without the limit. *)
Definition int (s : string) : option Z :=
  match drop_trailing_blanks
          (skip_blanks (string_of_list_ascii (int_char <$> decode s))) with
  | EmptyString => None
  | String c r =>
      if Ascii.eqb c "+" then Z.of_N <$> parse_digits 0 false r
      else if Ascii.eqb c "-" then (fun n => - Z.of_N n)%Z <$> parse_digits 0 false r
      else Z.of_N <$> parse_digits 0 false (String c r)
  end.

(** [sys.get_int_max_str_digits()], by default. *)
Definition max_str_digits : nat := 4300.

(** The number of decimal digits in [s]. *)
Fixpoint count_digits (s : string) : nat :=
  match s with
  | EmptyString => 0
  | String c s' => (if digit_val c then 1 else 0) + count_digits s'
  end.

(** [int(s)] under the default limit: a numeral of more than
    [max_str_digits] digits is a [ValueError] too. *)
Definition int_default (s : string) : option Z :=
  if (count_digits (string_of_list_ascii (int_char <$> decode s)) <=? max_str_digits)%nat
  then int s else None.

(** [s.isdigit()] *)
Definition isdigit (s : string) : bool :=
  match decode s with
  | [] => false
  | us => forallb (fun u => Unicode.is_digit (code u)) us
  end.

(** Whether every character of [s] is one of ['0'..'9']. *)
Fixpoint all_digits (s : string) : bool :=
  match s with
  | EmptyString => true
  | String c s' => bool_decide (is_Some (digit_val c)) && all_digits s'
  end.

(** [str(n)] for a natural number: its decimal numeral. *)
Definition str_of_N (n : N) : string := NilZero.string_of_uint (N.to_uint n).

(** [os.path.join(a, b)] with POSIX separators. *)
Definition path_join (a b : string) : string :=
  if String.prefix "/" b then b
  else match a with
       | EmptyString => b
       | _ => if String.prefix "/" (String.rev a) then a +:+ b
              else a +:+ "/" +:+ b
       end.

End Py.

(* ===================================================================== *)
(** * The BeautifulSoup tree *)
(* ===================================================================== *)

Module Bs4.

(** A parsed page: text nodes and tags. Attribute values are kept as they
    are written in the markup; [class] is presented split on whitespace,
    as the [html.parser] tree builder does. *)
#[warnings="-register-all"]
Inductive node : Type :=
| NavigableString (s : string)
| Tag (name : string) (attrs : list (string * string)) (contents : list node).

Definition is_tag (n : node) : bool :=
  match n with Tag _ _ _ => true | NavigableString _ => false end.

Definition has_name (nm : string) (n : node) : bool :=
  match n with
  | Tag name _ _ => String.eqb name nm
  | NavigableString _ => false
  end.

(** [tag[key]] / [tag.get(key)] on the attribute dictionary. *)
Fixpoint lookup_attr (key : string) (attrs : list (string * string)) : option string :=
  match attrs with
  | [] => None
  | (k, v) :: rest => if String.eqb k key then Some v else lookup_attr key rest
  end.

Definition get_attr (key : string) (n : node) : option string :=
  match n with
  | Tag _ attrs _ => lookup_attr key attrs
  | NavigableString _ => None
  end.

(** The maximal runs of non-whitespace characters: a pending run and the
    runs after it. *)
Fixpoint runs (us : list Utf8.uchar) : string * list string :=
  match us with
  | [] => (EmptyString, [])
  | u :: rest =>
      let '(cur, more) := runs rest in
      if Py.is_space u
      then (EmptyString, match cur with EmptyString => more | _ => cur :: more end)
      else (Utf8.raw u +:+ cur, more)
  end.

Definition class_list (s : string) : list string :=
  let '(cur, more) := runs (Utf8.decode s) in
  match cur with EmptyString => more | _ => cur :: more end.

(** The filter [class_=cls]: one of the tag's classes is [cls], or the
    classes joined by single spaces spell [cls]. *)
Definition has_class (cls : string) (n : node) : bool :=
  match get_attr "class" n with
  | Some v =>
      let cl := class_list v in
      existsb (String.eqb cls) cl || String.eqb (Py.join " " cl) cls
  | None => false
  end.

(** All nodes below [n], in document order. *)
Fixpoint descendants (n : node) : list node :=
  match n with
  | NavigableString _ => []
  | Tag _ _ cs =>
      (fix go (l : list node) : list node :=
         match l with
         | [] => []
         | c :: l' => c :: descendants c ++ go l'
         end) cs
  end.

(** [root.find_all(...)] for a filter [p] on tags. *)
Definition find_all (p : node -> bool) (root : node) : list node :=
  filter (fun n => is_tag n && p n = true) (descendants root).

(** [root.find(...)]: the first tag below [root] that passes [p], together
    with the siblings that follow it under its parent. *)
Fixpoint find_ctx (p : node -> bool) (root : node) : option (node * list node) :=
  match root with
  | NavigableString _ => None
  | Tag _ _ cs =>
      (fix go (l : list node) : option (node * list node) :=
         match l with
         | [] => None
         | c :: l' =>
             if is_tag c && p c then Some (c, l')
             else match find_ctx p c with
                  | Some r => Some r
                  | None => go l'
                  end
         end) cs
  end.

Definition find (p : node -> bool) (root : node) : option node :=
  fst <$> find_ctx p root.

(** The strings below (or at) [n], in document order. *)
Fixpoint strings (n : node) : list string :=
  match n with
  | NavigableString s => [s]
  | Tag _ _ cs =>
      (fix go (l : list node) : list string :=
         match l with
         | [] => []
         | c :: l' => strings c ++ go l'
         end) cs
  end.

Definition nonempty (s : string) : bool :=
  match s with EmptyString => false | _ => true end.

(** [n.get_text(strip=True)]: every string stripped, the empty ones
    dropped, the rest concatenated. *)
Definition get_text_strip (n : node) : string :=
  Py.join "" (filter (fun s => nonempty s = true) (Py.strip <$> strings n)).

(** [n.text], that is [n.get_text()]. *)
Definition text (n : node) : string := Py.join "" (strings n).

(** Truth value of a node: a tag is always true, a string is true when
    it is not empty. *)
Definition truthy (n : node) : bool :=
  match n with
  | Tag _ _ _ => true
  | NavigableString s => nonempty s
  end.

(** [x.find_next_sibling()] with no filter, applied to the node whose
    following siblings are [sibs]: the first following sibling that the
    empty filter accepts, and the siblings after it. Falsy nodes are
    never returned. Up to bs4 4.12 the empty filter accepts tags only;
    [strings_match] says whether it accepts text nodes as well. *)
Fixpoint find_next_sibling (strings_match : bool) (sibs : list node)
  : option (node * list node) :=
  match sibs with
  | [] => None
  | n :: rest =>
      if truthy n && (is_tag n || strings_match) then Some (n, rest)
      else find_next_sibling strings_match rest
  end.

End Bs4.

(* ===================================================================== *)
(** * The ElementTree element *)
(* ===================================================================== *)

Module ET.

(** An XML element: tag, attributes, the text before its first child
    ([None] when there is none) and its children. *)
#[warnings="-register-all"]
Inductive element : Type :=
| Element (tag : string) (attrib : list (string * string))
          (text : option string) (children : list element).

Definition tag (e : element) : string := let 'Element t _ _ _ := e in t.
Definition attrib (e : element) := let 'Element _ a _ _ := e in a.
Definition text (e : element) : option string := let 'Element _ _ t _ := e in t.
Definition children (e : element) : list element := let 'Element _ _ _ c := e in c.

Definition has_tag (t : string) (e : element) : bool := String.eqb (tag e) t.

(** [e.get(key)] *)
Definition get (key : string) (e : element) : option string :=
  Bs4.lookup_attr key (attrib e).

(** All elements below [e], in document order. *)
Fixpoint descendants (e : element) : list element :=
  match e with
  | Element _ _ _ cs =>
      (fix go (l : list element) : list element :=
         match l with
         | [] => []
         | c :: l' => c :: descendants c ++ go l'
         end) cs
  end.

(** [e.findall('.//t')] *)
Definition findall_deep (t : string) (e : element) : list element :=
  filter (fun x => has_tag t x = true) (descendants e).

(** [e.find('.//t')] *)
Definition find_deep (t : string) (e : element) : option element :=
  head (findall_deep t e).

(** [e.find('t')]: the first child with that tag. *)
Definition find (t : string) (e : element) : option element :=
  head (filter (fun x => has_tag t x = true) (children e)).

(** Truth value of an element: whether it has children. *)
Definition truthy (e : element) : bool :=
  match children e with [] => false | _ => true end.

End ET.

(* ===================================================================== *)
(** * The script *)
(* ===================================================================== *)

Module App.

Definition BASE_URL : string := "http://www.loyalbooks.com/Top_100".
Definition AUDIOBOOKS_DIR : string := "audiobooks".
Definition ARIA2C_SECRET : string := "your_secret_token".

(** ** Values, exceptions, the outside world *)

(** The values stored in the [pagination_info] dictionary. *)
Inductive pyval : Type := PyInt (z : Z) | PyNone.

Definition py_truthy (v : pyval) : bool :=
  match v with
  | PyInt z => negb (z =? 0)%Z
  | PyNone => false
  end.

Definition str_of_Z (z : Z) : string :=
  if (z <? 0)%Z then "-" +:+ Py.str_of_N (Z.abs_N z) else Py.str_of_N (Z.to_N z).

Definition pystr (v : pyval) : string :=
  match v with
  | PyInt z => str_of_Z z
  | PyNone => "None"
  end.

(** [d.get(key)] and [d.get(key, default)] *)
Definition dict_get (d : gmap string pyval) (key : string) : pyval :=
  default PyNone (d !! key).

Inductive exn : Type :=
| ValueError
| IndexError
| KeyError (key : string)
| TypeError
| AttributeError
| ParseError
| EOFError
| FileExistsError
| FileNotFoundError
| OSError
| RequestException (msg : string)
| RpcError (msg : string).

(** [except (ValueError, IndexError)] *)
Definition is_value_or_index_error (e : exn) : bool :=
  match e with ValueError | IndexError => true | _ => false end.

(** [except requests.RequestException] *)
Definition request_exception (e : exn) : option string :=
  match e with RequestException msg => Some msg | _ => None end.

(** [str(e)] *)
Definition exn_message (e : exn) : string :=
  match e with
  | RequestException msg | RpcError msg => msg
  | KeyError key => "'" +:+ key +:+ "'"
  | _ => ""
  end.

Inductive outcome (A : Type) : Type :=
| Returned (a : A)
| Raised (e : exn).
Arguments Returned {A} a.
Arguments Raised {A} e.

(** What the script does to the outside, in order. *)
Inductive event : Type :=
| EPopen (argv : list string)
| ESleep (seconds : Z)
| EGet (url : string)
| EPrint (line : string)
| EInput (prompt : string)
| EMakedirs (path : string)
| EAddUris (uris : list (option string)) (dir : string).

(** What [requests.get] meets: an exception of the [RequestException]
    family, or a response with a status code and a body. *)
Inductive http_outcome : Type :=
| Failed (msg : string)
| Response (status : Z) (content : string).

(** The collaborators. Each answer may depend on everything that
    happened before. [fromstring] is [ET.fromstring], [None] standing for
    [ParseError]; [add_uris_error] is the message of the exception the
    aria2 client raises, if it raises. *)
Record env : Type := Env {
  http : list event -> string -> http_outcome;
  html_parser : string -> Bs4.node;
  fromstring : string -> option ET.element;
  add_uris_error : list event -> list (option string) -> string -> option string;
  strings_match : bool
}.

(** The mutable state: the global [PAGE], the directories that exist, and
    the trace of events so far. *)
Record state : Type := State {
  PAGE : Z;
  dirs : gset string;
  trace : list event
}.

Definition set_PAGE (p : Z) (s : state) : state :=
  State p (dirs s) (trace s).
Definition set_dirs (d : gset string) (s : state) : state :=
  State (PAGE s) d (trace s).
Definition log (ev : event) (s : state) : state :=
  State (PAGE s) (dirs s) (trace s ++ [ev]).

(** ** The monad: state and exceptions *)

Definition M (A : Type) : Type := state -> outcome A * state.

Definition ret {A} (a : A) : M A := fun s => (Returned a, s).
Definition raise {A} (e : exn) : M A := fun s => (Raised e, s).
Definition bind {A B} (m : M A) (k : A -> M B) : M B :=
  fun s =>
    match m s with
    | (Returned a, s') => k a s'
    | (Raised e, s') => (Raised e, s')
    end.

#[global] Instance M_ret : MRet M := @ret.
#[global] Instance M_bind : MBind M := fun A B k m => bind m k.

(** [try: body  except <sel> as e: handler(e)] *)
Definition try_except {A B} (body : M A) (sel : exn -> option B)
    (handler : B -> M A) : M A :=
  fun s =>
    match body s with
    | (Returned a, s') => (Returned a, s')
    | (Raised e, s') =>
        match sel e with
        | Some b => handler b s'
        | None => (Raised e, s')
        end
    end.

Definition lift {A} (o : outcome A) : M A := fun s => (o, s).
Definition emit (ev : event) : M unit := fun s => (Returned tt, log ev s).
Definition print (line : string) : M unit := emit (EPrint line).
Definition get_PAGE : M Z := fun s => (Returned (PAGE s), s).
Definition modify_PAGE (f : Z -> Z) : M unit :=
  fun s => (Returned tt, set_PAGE (f (PAGE s)) s).

(** [for x in xs: body(x)] *)
Fixpoint for_each {A} (xs : list A) (body : A -> M unit) : M unit :=
  match xs with
  | [] => ret tt
  | x :: xs' => body x ;; for_each xs' body
  end.

(** ** Library calls with effects *)

Section WithEnv.
Variable E : env.

(** [requests.get(url)] *)
Definition requests_get (url : string) : M (Z * string) :=
  fun s =>
    let s' := log (EGet url) s in
    match http E (trace s) url with
    | Failed msg => (Raised (RequestException msg), s')
    | Response status content => (Returned (status, content), s')
    end.

(** [response.raise_for_status()] *)
Definition raise_for_status (status : Z) : M unit :=
  if ((400 <=? status) && (status <? 600))%Z
  then raise (RequestException ("HTTP status " +:+ str_of_Z status))
  else ret tt.

(** The proper prefixes of [s] that end just before a ['/']. *)
Fixpoint ancestors_go (pre s : string) : list string :=
  match s with
  | EmptyString => []
  | String c s' =>
      (if Ascii.eqb c "/" && Bs4.nonempty pre then [pre] else [])
      ++ ancestors_go (pre +:+ String c EmptyString) s'
  end.

Definition ancestors (path : string) : list string := ancestors_go "" path.

(** What [os.mkdir(p)] raises because of the name alone: an embedded
    null character, an empty name, a component of more than 255 bytes or
    a path of more than 4095. *)
Definition path_error (p : string) : option exn :=
  if String.eqb p "" then Some FileNotFoundError
  else if Py.contains (String Ascii.zero EmptyString) p then Some ValueError
  else if forallb (fun c => (String.length c <=? 255)%nat) (Py.split "/" p)
          && (String.length p <=? 4095)%nat
       then None
       else Some OSError.

(** The directories [os.makedirs(path)] makes sure of, parents first. *)
Definition chain (path : string) : list string := ancestors path ++ [path].

Fixpoint mkdir_chain (ps : list string) (ds : gset string) : gset string * option exn :=
  match ps with
  | [] => (ds, None)
  | p :: rest =>
      match path_error p with
      | Some e => (ds, Some e)
      | None => mkdir_chain rest (ds ∪ {[p]})
      end
  end.

(** [os.makedirs(path, exist_ok=exist_ok)] on a file system that holds
    directories only, each with its parents: the missing directories of
    the chain are created in order, up to the first name the system
    refuses. Failures of the environment (permissions, a file in the
    way, a full disk) are outside the model. *)
Definition makedirs (path : string) (exist_ok : bool) : M unit :=
  fun s =>
    let s' := log (EMakedirs path) s in
    match mkdir_chain (chain path) (dirs s) with
    | (ds, Some e) => (Raised e, set_dirs ds s')
    | (ds, None) =>
        if bool_decide (path ∈ dirs s) && negb exist_ok
        then (Raised FileExistsError, set_dirs ds s')
        else (Returned tt, set_dirs ds s')
    end.

(** [download_manager.add_uris(uris, options={"dir": dir})] *)
Definition add_uris (uris : list (option string)) (dir : string) : M unit :=
  fun s =>
    let s' := log (EAddUris uris dir) s in
    match add_uris_error E (trace s) uris dir with
    | Some msg => (Raised (RpcError msg), s')
    | None => (Returned tt, s')
    end.

(** ** [start_aria2c] *)

Definition start_aria2c : M unit :=
  emit (EPopen ["aria2c"; "--enable-rpc"; "--rpc-listen-all";
                "--rpc-secret=" +:+ ARIA2C_SECRET; "--disable-ipv6"]) ;;
  emit (ESleep 2).

(** ** [fetch_books] *)

Record book : Type := Book {
  title : string;
  author : string;
  link : option string;
  cover_image : option string
}.

(** Lines 47-52: the walk over the siblings that follow the title tag. *)
Fixpoint author_walk (sibs : list Bs4.node) : string :=
  match sibs with
  | [] => "Unknown Author"
  | n :: rest =>
      if Bs4.truthy n && (Bs4.is_tag n || strings_match E)
      then match n with
           | Bs4.NavigableString t =>
               if Bs4.nonempty (Py.strip t) then Py.strip t else author_walk rest
           | Bs4.Tag _ _ _ => author_walk rest
           end
      else author_walk rest
  end.

Definition is_anchor_with_href (n : Bs4.node) : bool :=
  Bs4.has_name "a" n && bool_decide (is_Some (Bs4.get_attr "href" n)).

(** The body of the loop of lines 37-62 for one entry: [None] when the
    entry is skipped by [continue]. *)
Definition entry_book (entry : Bs4.node) : outcome (option book) :=
  let link :=
    match Bs4.find is_anchor_with_href entry with
    | Some link_tag =>
        match Bs4.get_attr "href" link_tag with
        | Some href => Some ("http://www.loyalbooks.com" +:+ href)
        | None => None
        end
    | None => None
    end in
  match Bs4.find_ctx (Bs4.has_name "b") entry with
  | None => Returned None
  | Some (title_tag, sibs) =>
      let title := Py.strip (Bs4.text title_tag) in
      let author := author_walk sibs in
      match Bs4.find (Bs4.has_name "img") entry with
      | Some img =>
          match Bs4.get_attr "src" img with
          | Some src =>
              Returned (Some (Book title author link
                                   (Some ("http://www.loyalbooks.com" +:+ src))))
          | None => Raised (KeyError "src")
          end
      | None => Returned (Some (Book title author link None))
      end
  end.

Fixpoint collect_books (entries : list Bs4.node) (books : list book)
  : outcome (list book) :=
  match entries with
  | [] => Returned books
  | entry :: rest =>
      match entry_book entry with
      | Raised e => Raised e
      | Returned None => collect_books rest books
      | Returned (Some b) => collect_books rest (books ++ [b])
      end
  end.

Definition is_book_entry (n : Bs4.node) : bool :=
  Bs4.has_name "td" n && Bs4.has_class "layout2-blue" n.

(** Lines 33-63: from the parsed page to the list of books. *)
Definition books_of_soup (soup : Bs4.node) : outcome (list book) :=
  collect_books (Bs4.find_all is_book_entry soup) [].

Definition fetch_books (page : Z) : M (list book) :=
  try_except
    ('(status, content) ← requests_get (BASE_URL +:+ "/" +:+ str_of_Z page) ;
     raise_for_status status ;;
     lift (books_of_soup (html_parser E content)))
    request_exception
    (fun msg => print ("Error fetching books: " +:+ msg) ;; ret []).

(** ** [get_pagination_info] *)

(** [d[key]] where an integer is needed. *)
Definition get_int (d : gmap string pyval) (key : string) : M Z :=
  match d !! key with
  | Some (PyInt z) => ret z
  | Some PyNone => raise TypeError
  | None => raise (KeyError key)
  end.

(** [parts[i]] *)
Definition index {A} (l : list A) (i : nat) : outcome A :=
  match l !! i with
  | Some x => Returned x
  | None => Raised IndexError
  end.

(** [int(s)] *)
Definition to_int (s : string) : outcome Z :=
  match Py.int s with
  | Some z => Returned z
  | None => Raised ValueError
  end.

(** Lines 77-79, the body of the [try]: the dictionary as it stands when
    the body ends, and the exception that ended it, if any. *)
Definition parse_marker (pagination_text : string) (info : gmap string pyval)
  : gmap string pyval * option exn :=
  match index (Py.split "Page " pagination_text) 1 with
  | Raised e => (info, Some e)
  | Returned rest =>
      let parts := Py.split " of " rest in
      match index parts 0 with
      | Raised e => (info, Some e)
      | Returned p0 =>
          match to_int p0 with
          | Raised e => (info, Some e)
          | Returned current =>
              let info1 := <["current_page" := PyInt current]> info in
              match index parts 1 with
              | Raised e => (info1, Some e)
              | Returned p1 =>
                  match to_int (Py.replace ">" "" p1) with
                  | Raised e => (info1, Some e)
                  | Returned total =>
                      (<["total_pages" := PyInt total]> info1, None)
                  end
              end
          end
      end
  end.

Definition is_result_pages (n : Bs4.node) : bool :=
  Bs4.has_name "div" n && Bs4.has_class "result-pages" n.

(** Lines 75-82: the guarded [try] around [parse_marker]. *)
Definition read_marker (pagination_text : string) (info : gmap string pyval)
  : M (gmap string pyval) :=
  if Py.contains "Page" pagination_text && Py.contains "of" pagination_text
  then
    match parse_marker pagination_text info with
    | (info, None) => ret info
    | (info, Some e) =>
        if is_value_or_index_error e
        then print ("Warning: Pagination text parsing failed with value '"
                    +:+ pagination_text +:+ "'") ;; ret info
        else raise e
    end
  else ret info.

(** Lines 84-87. *)
Definition set_neighbours (pagination_info : gmap string pyval)
  : M (gmap string pyval) :=
  current ← get_int pagination_info "current_page" ;
  let pagination_info :=
    <["has_previous" :=
        if (1 <? current)%Z then PyInt (current - 1) else PyNone]>
      pagination_info in
  current ← get_int pagination_info "current_page" ;
  total ← get_int pagination_info "total_pages" ;
  ret (<["has_next" :=
           if (current <? total)%Z then PyInt (current + 1) else PyNone]>
         pagination_info).

Definition get_pagination_info (soup : Bs4.node) : M (gmap string pyval) :=
  page ← get_PAGE ;
  let pagination_info : gmap string pyval :=
    <["total_pages" := PyInt page]> (<["current_page" := PyInt page]> ∅) in
  match Bs4.find is_result_pages soup with
  | Some result_pages_div =>
      let pagination_text := Bs4.get_text_strip result_pages_div in
      pagination_info ← read_marker pagination_text pagination_info ;
      set_neighbours pagination_info
  | None => ret pagination_info
  end.

(** ** [display_books] *)

Fixpoint display_lines (idx : N) (books : list book) : list string :=
  match books with
  | [] => []
  | b :: rest =>
      (Py.str_of_N idx +:+ ". " +:+ title b +:+ " by " +:+ author b)
        :: display_lines (N.succ idx) rest
  end.

Definition display_books (books : list book) : M unit :=
  print "Available books:" ;;
  for_each (display_lines 1 books) print ;;
  print "".

(** ** [fetch_rss_feed] *)

Definition fetch_rss_feed (url : string) : M (option ET.element) :=
  try_except
    ('(status, content) ← requests_get (url +:+ "/feed") ;
     raise_for_status status ;;
     match fromstring E content with
     | Some root => ret (Some root)
     | None => raise ParseError
     end)
    request_exception
    (fun msg => print ("Error fetching RSS feed: " +:+ msg) ;; ret None).

(** ** [download_book] *)

(** Lines 116-117. *)
Definition book_title_cleaned (book_title : string) : string :=
  Py.replace "'" ""
    (Py.replace " " "-"
       (Py.lower (Py.strip (hd "" (Py.split " by " book_title))))).

(** Lines 113-115: [None] stands for the [AttributeError] of
    [None.strip()] on a title element without text. *)
Definition feed_title (rss_feed : ET.element) : option string :=
  match ET.find_deep "title" rss_feed with
  | Some title_element => Py.strip <$> ET.text title_element
  | None => Some "unknown_title"
  end.

(** Lines 122-123. *)
Definition mp3_urls (rss_feed : ET.element) : list (option string) :=
  omap (fun item => ET.get "url" <$> ET.find "enclosure" item)
       (ET.findall_deep "item" rss_feed).

(** Lines 136-140. *)
Definition submit (book_dir : string) (url : option string) : M unit :=
  fun s =>
    match add_uris [url] book_dir s with
    | (Raised e, s') => print ("Error adding URL to aria2p: " +:+ exn_message e) s'
    | r => r
    end.

Definition download_book (rss_feed : ET.element) : M unit :=
  book_title ←
    match feed_title rss_feed with
    | Some t => ret t
    | None => raise AttributeError
    end ;
  let book_dir := Py.path_join AUDIOBOOKS_DIR (book_title_cleaned book_title) in
  makedirs book_dir true ;;
  for_each (mp3_urls rss_feed) (submit book_dir) ;;
  print "Download started!".

(** ** [main] *)

Definition PROMPT : string :=
  "Enter the number of the book you want to download, or 'n' for next page, 'p' for previous page: ".

Inductive control : Type := Reprompt | Break.

(** Lines 171-199: one pass through the body of the inner loop, [choice]
    being the stripped, lower-cased line the user typed. *)
Definition handle_choice (books : list book) (pagination_info : gmap string pyval)
    (choice : string) : M control :=
  if Py.isdigit choice then
    choice ← lift (to_int choice) ;
    if ((1 <=? choice) && (choice <=? Z.of_nat (length books)))%Z then
      match books !! Z.to_nat (choice - 1) with
      | None => raise IndexError
      | Some selected_book =>
          match link selected_book with
          | Some url =>
              if Bs4.nonempty url then
                rss_feed ← fetch_rss_feed url ;
                match rss_feed with
                | Some feed =>
                    if ET.truthy feed then download_book feed ;; ret Break
                    else print "Failed to fetch the RSS feed. Please try again." ;;
                         ret Break
                | None =>
                    print "Failed to fetch the RSS feed. Please try again." ;;
                    ret Break
                end
              else ret Break
          | None => ret Break
          end
      end
    else
      print ("Invalid choice. Please enter a number between 1 and "
             +:+ Py.str_of_N (N.of_nat (length books)) +:+ ".") ;;
      ret Reprompt
  else if String.eqb choice "n" then
    if py_truthy (dict_get pagination_info "has_next")
    then modify_PAGE (fun p => p + 1)%Z ;; ret Break
    else print "No next page available." ;; ret Reprompt
  else if String.eqb choice "p" then
    if py_truthy (dict_get pagination_info "has_previous")
    then modify_PAGE (fun p => p - 1)%Z ;; ret Break
    else print "No previous page available." ;; ret Reprompt
  else
    print "Invalid input. Please enter a number, 'n' for next page, or 'p' for previous page." ;;
    ret Reprompt.

(** Lines 152-166: the head of the outer loop. [None] when [main]
    returns because no books were found. *)
Definition listing_page : M (option (list book * gmap string pyval)) :=
  page ← get_PAGE ;
  '(status, content) ← requests_get (BASE_URL +:+ "/" +:+ str_of_Z page) ;
  raise_for_status status ;;
  let soup := html_parser E content in
  page ← get_PAGE ;
  books ← fetch_books page ;
  match books with
  | [] =>
      print "No books found or there was an error fetching the book list." ;;
      ret None
  | _ =>
      display_books books ;;
      pagination_info ← get_pagination_info soup ;
      page ← get_PAGE ;
      let current_page := default (PyInt page) (pagination_info !! "current_page") in
      let total_pages :=
        match pagination_info !! "total_pages" with
        | Some v => pystr v
        | None => "unknown"
        end in
      print ("Page " +:+ pystr current_page +:+ " of " +:+ total_pages) ;;
      ret (Some (books, pagination_info))
  end.

(** The inner loop, and through [Break] the outer one; [inputs] are the
    lines the user will type. When they run out, [input] raises
    [EOFError]. *)
Fixpoint prompt_loop (inputs : list string) (books : list book)
    (pagination_info : gmap string pyval) : M unit :=
  emit (EInput PROMPT) ;;
  match inputs with
  | [] => raise EOFError
  | line :: rest =>
      c ← handle_choice books pagination_info (Py.lower (Py.strip line)) ;
      match c with
      | Reprompt => prompt_loop rest books pagination_info
      | Break =>
          r ← listing_page ;
          match r with
          | Some (books', pagination_info') =>
              prompt_loop rest books' pagination_info'
          | None => ret tt
          end
      end
  end.

Definition main (inputs : list string) : M unit :=
  start_aria2c ;;
  r ← listing_page ;
  match r with
  | Some (books, pagination_info) => prompt_loop inputs books pagination_info
  | None => ret tt
  end.

(** Lines 202-205. *)
Definition script (inputs : list string) : M unit :=
  makedirs AUDIOBOOKS_DIR true ;;
  main inputs.

End WithEnv.

End App.

(* ===================================================================== *)
(** * Properties of the string builtins *)
(* ===================================================================== *)

Module PyFacts.
Import Py.

(** Whether the character [a] occurs in [s]. *)
Fixpoint occurs (a : ascii) (s : string) : bool :=
  match s with
  | EmptyString => false
  | String c s' => Ascii.eqb c a || occurs a s'
  end.

(** Whether every character of [s] passes [p]. *)
Fixpoint all_chars (p : ascii -> bool) (s : string) : bool :=
  match s with
  | EmptyString => true
  | String c s' => p c && all_chars p s'
  end.


(** Every [old] character replaced by [new]. *)
Fixpoint replace_char (old new : ascii) (s : string) : string :=
  match s with
  | EmptyString => EmptyString
  | String c s' =>
      String (if Ascii.eqb c old then new else c) (replace_char old new s')
  end.

(** Every [old] character dropped. *)
Fixpoint remove_char (old : ascii) (s : string) : string :=
  match s with
  | EmptyString => EmptyString
  | String c s' =>
      if Ascii.eqb c old then remove_char old s' else String c (remove_char old s')
  end.

Lemma prefix_cons a sep c s :
  String.prefix (String a sep) (String c s) =
  Ascii.eqb a c && String.prefix sep s.
Proof.
  simpl. destruct (ascii_dec a c) as [->|Hne].
  - now rewrite Ascii.eqb_refl.
  - apply Ascii.eqb_neq in Hne. now rewrite Hne.
Qed.

Lemma prefix_nil s : String.prefix EmptyString s = true.
Proof. now destruct s. Qed.

Lemma app_cons a s t : String a s +:+ t = String a (s +:+ t).
Proof. reflexivity. Qed.

Lemma app_nil_l t : "" +:+ t = t.
Proof. reflexivity. Qed.

Lemma prefix_app sep s : String.prefix sep (sep +:+ s) = true.
Proof.
  induction sep as [|a sep IH]; [apply prefix_nil|].
  now rewrite app_cons, prefix_cons, Ascii.eqb_refl, IH.
Qed.

Lemma split_go_nonempty sep skip s : split_go sep skip s <> [].
Proof.
  revert skip. induction s as [|c s IH]; intros skip; [easy|].
  cbn [split_go]. destruct skip; [|apply IH].
  destruct (String.prefix sep (String c s)); [easy|].
  now destruct (split_go sep 0 s).
Qed.

Lemma split_nonempty sep s : split sep s <> [].
Proof. apply split_go_nonempty. Qed.


Lemma replace_one_char old new s :
  replace (String old "") (String new "") s = replace_char old new s.
Proof.
  unfold replace. induction s as [|c s IH]; [reflexivity|].
  cbn [replace_go replace_char]. rewrite prefix_cons, prefix_nil, andb_true_r.
  rewrite (Ascii.eqb_sym c old).
  destruct (Ascii.eqb old c); cbn; now rewrite IH.
Qed.

Lemma replace_remove old s :
  replace (String old "") "" s = remove_char old s.
Proof.
  unfold replace. induction s as [|c s IH]; [reflexivity|].
  cbn [replace_go remove_char]. rewrite prefix_cons, prefix_nil, andb_true_r.
  rewrite (Ascii.eqb_sym c old).
  destruct (Ascii.eqb old c); cbn; now rewrite IH.
Qed.

Lemma app_assoc' s t u : (s +:+ t) +:+ u = s +:+ t +:+ u.
Proof. induction s as [|c s IH]; [reflexivity|]. now rewrite !app_cons, IH. Qed.

Lemma occurs_app a s t : occurs a (s +:+ t) = occurs a s || occurs a t.
Proof.
  induction s as [|c s IH]; [reflexivity|].
  rewrite app_cons. cbn [occurs]. now rewrite IH, orb_assoc.
Qed.

Lemma prefix_absent a sep s :
  occurs a s = false -> String.prefix (String a sep) s = false.
Proof.
  destruct s as [|c s]; [reflexivity|]. cbn [occurs]. intros H.
  apply orb_false_elim in H as [H _]. rewrite prefix_cons, (Ascii.eqb_sym a c), H.
  reflexivity.
Qed.

Lemma contains_absent a sep s :
  occurs a s = false -> contains (String a sep) s = false.
Proof.
  induction s as [|c s IH]; [reflexivity|]. intros H.
  cbn [contains]. rewrite (prefix_absent _ _ _ H). cbn [occurs] in H.
  apply orb_false_elim in H as [_ H]. now apply IH.
Qed.

Lemma contains_app_r sub u v : contains sub v = true -> contains sub (u +:+ v) = true.
Proof.
  intros H. induction u as [|c u IH]; [exact H|].
  rewrite app_cons. cbn [contains]. rewrite IH. apply orb_true_r.
Qed.

Lemma contains_prefix sub v : contains sub (sub +:+ v) = true.
Proof.
  destruct (sub +:+ v) eqn:Heq; cbn [contains]; rewrite <- Heq, prefix_app; reflexivity.
Qed.

Lemma contains_middle sub u v : contains sub (u +:+ sub +:+ v) = true.
Proof. apply contains_app_r, contains_prefix. Qed.

(** A field without the separator's first character is not split. *)
Lemma split_absent a sep s :
  occurs a s = false -> split (String a sep) s = [s].
Proof.
  unfold split. induction s as [|c s IH]; [reflexivity|]. intros H.
  cbn [split_go]. rewrite (prefix_absent _ _ _ H). cbn [occurs] in H.
  apply orb_false_elim in H as [_ H]. now rewrite (IH H).
Qed.

Lemma split_go_skip sep p v :
  split_go sep (String.length p) (p +:+ v) = split_go sep 0 v.
Proof. induction p as [|c p IH]; [reflexivity|]. rewrite app_cons. exact IH. Qed.

(** The first field ends at the first occurrence of the separator. *)
Lemma split_first a sep u v :
  occurs a u = false ->
  split (String a sep) (u +:+ String a sep +:+ v) = u :: split (String a sep) v.
Proof.
  unfold split. intros H. induction u as [|c u IH].
  - rewrite app_nil_l. rewrite app_cons. cbn [split_go].
    rewrite <- app_cons, prefix_app.
    replace (String.length (String a sep) - 1) with (String.length sep)
      by (cbn [String.length]; lia).
    now rewrite split_go_skip.
  - cbn [occurs] in H. apply orb_false_elim in H as [Hc H].
    rewrite app_cons. cbn [split_go].
    rewrite prefix_cons, (Ascii.eqb_sym a c), Hc. cbn [andb].
    now rewrite (IH H).
Qed.

Lemma remove_char_tail a u t :
  occurs a u = false -> all_chars (Ascii.eqb a) t = true ->
  remove_char a (u +:+ t) = u.
Proof.
  intros Hu Ht. induction u as [|c u IH].
  - rewrite app_nil_l. induction t as [|c t IHt]; [reflexivity|].
    cbn [all_chars] in Ht. apply andb_prop in Ht as [Hc Ht].
    cbn [remove_char]. rewrite (Ascii.eqb_sym c a), Hc. now apply IHt.
  - cbn [occurs] in Hu. apply orb_false_elim in Hu as [Hc Hu].
    rewrite app_cons. cbn [remove_char]. rewrite Hc. now rewrite (IH Hu).
Qed.

Lemma all_same_absent a b t :
  all_chars (Ascii.eqb a) t = true -> Ascii.eqb a b = false -> occurs b t = false.
Proof.
  intros Ht Hab. induction t as [|c t IH]; [reflexivity|].
  cbn [all_chars] in Ht. apply andb_prop in Ht as [Hc Ht].
  apply Ascii.eqb_eq in Hc as <-. cbn [occurs]. now rewrite Hab, IH.
Qed.

(** *** Decimal numerals *)

Lemma digit_facts c d :
  digit_val c = Some d ->
  (N_of_ascii c <? 128)%N = true /\ is_blank c = false /\
  Ascii.eqb c "+" = false /\ Ascii.eqb c "-" = false /\
  Ascii.eqb c "_" = false /\ Ascii.eqb c " " = false /\ Ascii.eqb c "P" = false /\
  Ascii.eqb c ">" = false /\ Ascii.eqb c "o" = false /\
  Unicode.is_digit (N_of_ascii c) = true.
Proof.
  destruct c as [[] [] [] [] [] [] [] []]; vm_compute; intros H;
    first [discriminate H | repeat split].
Qed.

Lemma digits_absent a s :
  digit_val a = None -> all_digits s = true -> occurs a s = false.
Proof.
  intros Ha. induction s as [|c s IH]; [reflexivity|].
  cbn [all_digits occurs]. intros H. apply andb_prop in H as [Hc H].
  apply bool_decide_eq_true in Hc as [d Hd].
  rewrite (IH H), orb_false_r. apply Ascii.eqb_neq. intros ->. congruence.
Qed.

Lemma all_digits_uint d : all_digits (NilEmpty.string_of_uint d) = true.
Proof. induction d; cbn [NilEmpty.string_of_uint all_digits]; try rewrite IHd; reflexivity. Qed.

Lemma str_of_N_digits n : all_digits (str_of_N n) = true.
Proof.
  unfold str_of_N, NilZero.string_of_uint.
  destruct (N.to_uint n); try reflexivity; apply all_digits_uint.
Qed.

Lemma str_of_N_nonempty n : str_of_N n <> "".
Proof.
  unfold str_of_N, NilZero.string_of_uint. now destruct (N.to_uint n).
Qed.

(** *** ASCII text *)

Definition is_ascii (c : ascii) : bool := (N_of_ascii c <? 128)%N.

Definition ascii_char (c : ascii) : Utf8.uchar :=
  Utf8.UChar (N_of_ascii c) (String c "").

Lemma decode_ascii s :
  all_chars is_ascii s = true ->
  Utf8.decode s = ascii_char <$> list_ascii_of_string s.
Proof.
  induction s as [|c s IH]; [reflexivity|]. cbn [all_chars]. intros H.
  apply andb_prop in H as [Hc H]. unfold is_ascii in Hc.
  cbn [Utf8.decode list_ascii_of_string]. rewrite Hc, (IH H). reflexivity.
Qed.

Lemma int_chars_ascii s :
  all_chars is_ascii s = true ->
  string_of_list_ascii (int_char <$> Utf8.decode s) = s.
Proof.
  intros H. rewrite (decode_ascii _ H). induction s as [|c s IH]; [reflexivity|].
  cbn [all_chars] in H. apply andb_prop in H as [Hc H]. unfold is_ascii in Hc.
  cbn [list_ascii_of_string fmap list_fmap string_of_list_ascii].
  change (string_of_list_ascii (int_char <$> (ascii_char <$> list_ascii_of_string s)))
    with (string_of_list_ascii (int_char <$> (ascii_char <$> list_ascii_of_string s))).
  rewrite (IH H). f_equal. unfold int_char, ascii_char. cbn [Utf8.code].
  rewrite Hc. apply ascii_N_embedding.
Qed.

Lemma all_chars_app p s t :
  all_chars p (s +:+ t) = all_chars p s && all_chars p t.
Proof.
  induction s as [|c s IH]; [reflexivity|].
  rewrite app_cons. cbn [all_chars]. now rewrite IH, andb_assoc.
Qed.

Lemma all_chars_impl (p q : ascii -> bool) s :
  (forall c, p c = true -> q c = true) -> all_chars p s = true -> all_chars q s = true.
Proof.
  intros Hpq. induction s as [|c s IH]; [reflexivity|]. cbn [all_chars]. intros H.
  apply andb_prop in H as [Hc H]. now rewrite (Hpq c Hc), (IH H).
Qed.

Lemma digits_ascii s : all_digits s = true -> all_chars is_ascii s = true.
Proof.
  induction s as [|c s IH]; [reflexivity|]. cbn [all_digits all_chars]. intros H.
  apply andb_prop in H as [Hc H]. apply bool_decide_eq_true in Hc as [d Hd].
  rewrite (IH H), andb_true_r. unfold is_ascii.
  now destruct (digit_facts _ _ Hd) as [-> _].
Qed.

Lemma blank_ascii c : is_blank c = true -> is_ascii c = true.
Proof. destruct c as [[] [] [] [] [] [] [] []]; vm_compute; intros H; done. Qed.

Lemma skip_blanks_all w : all_chars is_blank w = true -> skip_blanks w = "".
Proof.
  induction w as [|c w IH]; [reflexivity|]. cbn [all_chars skip_blanks]. intros H.
  apply andb_prop in H as [-> H]. now apply IH.
Qed.

Lemma drop_trailing_blanks_all w :
  all_chars is_blank w = true -> drop_trailing_blanks w = "".
Proof.
  induction w as [|c w IH]; [reflexivity|]. cbn [all_chars drop_trailing_blanks].
  intros H. apply andb_prop in H as [Hc H]. now rewrite (IH H), Hc.
Qed.

Lemma drop_trailing_blanks_digits s w :
  all_digits s = true -> all_chars is_blank w = true ->
  drop_trailing_blanks (s +:+ w) = s.
Proof.
  intros Hs Hw. induction s as [|c s IH].
  - rewrite app_nil_l. now apply drop_trailing_blanks_all.
  - cbn [all_digits] in Hs. apply andb_prop in Hs as [Hc Hs].
    apply bool_decide_eq_true in Hc as [d Hd].
    rewrite app_cons. cbn [drop_trailing_blanks]. rewrite (IH Hs).
    destruct (digit_facts _ _ Hd) as (_ & -> & _). now destruct s.
Qed.

Lemma parse_digits_uint d acc :
  parse_digits acc true (NilEmpty.string_of_uint d) =
  Some (Unsigned.of_lu (Decimal.rev d) + acc * 10 ^ Unsigned.usize d)%N.
Proof.
  revert acc. unfold Decimal.rev.
  induction d; intros acc; cbn [NilEmpty.string_of_uint parse_digits];
    [cbn; f_equal; lia | ..];
    (change (Ascii.eqb _ "_") with false; cbv iota;
     match goal with
     | |- context [digit_val ?c] =>
         let v := eval vm_compute in (digit_val c) in
         change (digit_val c) with v; cbv iota
     end;
     rewrite IHd; cbn [Decimal.revapp Unsigned.usize];
     rewrite (Unsigned.of_lu_revapp d (_ Nil)); cbn [Unsigned.of_lu];
     rewrite N.pow_succ_r'; unfold Decimal.rev; f_equal; ring).
Qed.

Lemma parse_digits_str_of_N n : parse_digits 0 false (str_of_N n) = Some n.
Proof.
  unfold str_of_N, NilZero.string_of_uint.
  rewrite <- (DecimalN.Unsigned.of_to n) at 2.
  unfold N.of_uint. rewrite Unsigned.of_uint_alt.
  destruct (N.to_uint n) as [|d|d|d|d|d|d|d|d|d|d]; [reflexivity|..];
    (cbn [NilEmpty.string_of_uint parse_digits];
     change (Ascii.eqb _ "_") with false; cbv iota;
     match goal with
     | |- context [digit_val ?c] =>
         let v := eval vm_compute in (digit_val c) in
         change (digit_val c) with v; cbv iota
     end;
     rewrite parse_digits_uint; unfold Decimal.rev; cbn [Decimal.revapp];
     rewrite (Unsigned.of_lu_revapp d (_ Nil)); cbn [Unsigned.of_lu];
     unfold Decimal.rev; f_equal; ring).
Qed.

(** [int] of a numeral followed by blanks. *)
Lemma int_numeral_blanks n w :
  all_chars is_blank w = true -> int (str_of_N n +:+ w) = Some (Z.of_N n).
Proof.
  intros Hw. unfold int. rewrite int_chars_ascii.
  2:{ rewrite all_chars_app, (digits_ascii _ (str_of_N_digits n)).
      apply (all_chars_impl is_blank); [apply blank_ascii|exact Hw]. }
  pose proof (parse_digits_str_of_N n) as Hp.
  pose proof (str_of_N_digits n) as Hd.
  assert (Hskip : skip_blanks (str_of_N n +:+ w) = str_of_N n +:+ w).
  { destruct (str_of_N n) as [|c r]; [discriminate Hp|].
    cbn [all_digits] in Hd. apply andb_prop in Hd as [Hc _].
    apply bool_decide_eq_true in Hc as [d Hc].
    rewrite app_cons. cbn [skip_blanks].
    now destruct (digit_facts _ _ Hc) as (_ & -> & _). }
  rewrite Hskip, (drop_trailing_blanks_digits _ _ Hd Hw).
  destruct (str_of_N n) as [|c r] eqn:Heq; [discriminate Hp|].
  cbn [all_digits] in Hd. apply andb_prop in Hd as [Hc _].
  apply bool_decide_eq_true in Hc as [d Hc].
  destruct (digit_facts _ _ Hc) as (_ & _ & -> & -> & _).
  now rewrite Hp.
Qed.

(** [int(str(n)) == n] *)
Lemma int_str_of_N n : int (str_of_N n) = Some (Z.of_N n).
Proof.
  rewrite <- (int_numeral_blanks n "" eq_refl). f_equal.
  induction (str_of_N n) as [|c r IH]; [reflexivity|]. now rewrite app_cons, <- IH.
Qed.

Lemma forallb_digits r :
  all_digits r = true ->
  forallb (fun u => Unicode.is_digit (Utf8.code u))
          (ascii_char <$> list_ascii_of_string r) = true.
Proof.
  induction r as [|c r IH]; [reflexivity|]. cbn [all_digits]. intros Hd.
  apply andb_prop in Hd as [Hc Hd]. apply bool_decide_eq_true in Hc as [d Hc].
  cbn [list_ascii_of_string fmap list_fmap forallb].
  change (Utf8.code (ascii_char c)) with (N_of_ascii c).
  destruct (digit_facts _ _ Hc) as (_ & _ & _ & _ & _ & _ & _ & _ & _ & ->).
  exact (IH Hd).
Qed.

Lemma isdigit_digits s : s <> "" -> all_digits s = true -> isdigit s = true.
Proof.
  intros Hne Hd. unfold isdigit. rewrite (decode_ascii _ (digits_ascii _ Hd)).
  pose proof (forallb_digits s Hd) as H.
  destruct s as [|c r]; [done|]. exact H.
Qed.

Lemma str_of_N_isdigit n : isdigit (str_of_N n) = true.
Proof. apply isdigit_digits; [apply str_of_N_nonempty|apply str_of_N_digits]. Qed.

Lemma all_chars_absent p a t :
  all_chars p t = true -> p a = false -> occurs a t = false.
Proof.
  intros Ht Ha. induction t as [|c t IH]; [reflexivity|].
  cbn [all_chars] in Ht. apply andb_prop in Ht as [Hc Ht].
  cbn [occurs]. rewrite (IH Ht), orb_false_r.
  apply Ascii.eqb_neq. intros ->. congruence.
Qed.

(** A field without the separator's second character is not split. *)
Lemma split_absent_second a b sep s :
  occurs b s = false -> split (String a (String b sep)) s = [s].
Proof.
  unfold split. induction s as [|c s IH]; [reflexivity|]. intros H.
  cbn [occurs] in H. apply orb_false_elim in H as [_ H].
  cbn [split_go]. rewrite prefix_cons, (prefix_absent _ _ _ H), andb_false_r.
  now rewrite (IH H).
Qed.

Lemma remove_char_app a u v :
  remove_char a (u +:+ v) = remove_char a u +:+ remove_char a v.
Proof.
  induction u as [|c u IH]; [reflexivity|].
  rewrite app_cons. cbn [remove_char]. rewrite IH. now destruct (Ascii.eqb c a).
Qed.

Lemma remove_char_absent a u : occurs a u = false -> remove_char a u = u.
Proof.
  induction u as [|c u IH]; [reflexivity|]. cbn [occurs remove_char]. intros H.
  apply orb_false_elim in H as [-> H]. now rewrite (IH H).
Qed.

Lemma count_digits_app s t : count_digits (s +:+ t) = (count_digits s + count_digits t)%nat.
Proof.
  induction s as [|c s IH]; [reflexivity|].
  rewrite app_cons. cbn [count_digits]. rewrite IH. lia.
Qed.

Lemma count_digits_digits s : all_digits s = true -> count_digits s = String.length s.
Proof.
  induction s as [|c s IH]; [reflexivity|]. cbn [all_digits count_digits String.length].
  intros H. apply andb_prop in H as [Hc H]. apply bool_decide_eq_true in Hc as [d ->].
  now rewrite (IH H).
Qed.

Lemma count_digits_blanks w : all_chars is_blank w = true -> count_digits w = 0%nat.
Proof.
  induction w as [|c w IH]; [reflexivity|]. cbn [all_chars count_digits].
  intros H. apply andb_prop in H as [Hc H]. rewrite (IH H).
  destruct (digit_val c) as [d|] eqn:Hd; [|reflexivity].
  destruct (digit_facts _ _ Hd) as (_ & Hb & _). congruence.
Qed.

(** Under the default limit a numeral of at most [max_str_digits] digits
    is read as without it. *)
Lemma int_default_numeral n w :
  all_chars is_blank w = true ->
  (String.length (str_of_N n) <= max_str_digits)%nat ->
  int_default (str_of_N n +:+ w) = Some (Z.of_N n).
Proof.
  intros Hw Hlen. unfold int_default. rewrite int_chars_ascii.
  2:{ rewrite all_chars_app, (digits_ascii _ (str_of_N_digits n)).
      apply (all_chars_impl is_blank); [apply blank_ascii|exact Hw]. }
  rewrite count_digits_app, (count_digits_digits _ (str_of_N_digits n)),
    (count_digits_blanks _ Hw), Nat.add_0_r.
  rewrite (proj2 (Nat.leb_le _ _) Hlen). now apply int_numeral_blanks.
Qed.

End PyFacts.

(* ===================================================================== *)
(** * Pagination *)
(* ===================================================================== *)

Import App.

Ltac run_m :=
  unfold mbind, M_bind, bind, mret, M_ret, ret, raise, lift, print, emit,
    get_PAGE, modify_PAGE in *; cbn beta iota in *.

(** The marker text "Page X of Y" followed by [trailing]. *)
Definition marker_text (X Y : N) (trailing : string) : string :=
  "Page " +:+ Py.str_of_N X +:+ " of " +:+ Py.str_of_N Y +:+ trailing.

(** A page whose only content is the pagination marker with text [t]. *)
Definition marker_page (t : string) : Bs4.node :=
  Bs4.Tag "[document]" []
    [Bs4.Tag "div" [("class", "result-pages")] [Bs4.NavigableString t]].

(** [d.get(key) is not None] *)
Definition present (d : gmap string pyval) (key : string) : Prop :=
  dict_get d key <> PyNone.

(** A character the parser passes over after the total: ['>'], which
    it removes, or a blank, which [int] skips. *)
Definition stray (c : ascii) : bool := Ascii.eqb ">" c || Py.is_blank c.

Section Pagination.
Import Py PyFacts.

Lemma marker_tail_absent (a : ascii) Y t :
  digit_val a = None -> stray a = false ->
  all_chars stray t = true ->
  occurs a (str_of_N Y +:+ t) = false.
Proof.
  intros Ha Hstray Ht. rewrite occurs_app.
  rewrite (digits_absent _ _ Ha (str_of_N_digits Y)).
  now rewrite (all_chars_absent _ _ _ Ht Hstray).
Qed.

Lemma split_marker_text X Y t :
  all_chars stray t = true ->
  split "Page " (marker_text X Y t) =
    [""; str_of_N X +:+ " of " +:+ str_of_N Y +:+ t] /\
  split " of " (str_of_N X +:+ " of " +:+ str_of_N Y +:+ t) =
    [str_of_N X; str_of_N Y +:+ t].
Proof.
  intros Ht. split.
  - unfold marker_text.
    rewrite <- (app_nil_l ("Page " +:+ _)).
    rewrite (split_first "P" "age " "" _ eq_refl).
    rewrite split_absent; [reflexivity|].
    rewrite occurs_app, (digits_absent "P" _ eq_refl (str_of_N_digits X)).
    rewrite occurs_app. cbn [orb]. rewrite marker_tail_absent by easy. reflexivity.
  - rewrite (split_first " " "of " (str_of_N X));
      [|apply (digits_absent " " _ eq_refl (str_of_N_digits X))].
    rewrite split_absent_second; [reflexivity|]. now apply marker_tail_absent.
Qed.

Lemma remove_stray t :
  all_chars stray t = true -> all_chars is_blank (remove_char ">" t) = true.
Proof.
  induction t as [|c t IH]; [reflexivity|]. cbn [all_chars remove_char].
  intros H. apply andb_prop in H as [Hc H]. unfold stray in Hc.
  rewrite (Ascii.eqb_sym ">" c) in Hc.
  destruct (Ascii.eqb c ">"); [now apply IH|].
  cbn [all_chars]. cbn [orb] in Hc. now rewrite Hc, (IH H).
Qed.

Lemma parse_marker_text X Y t info :
  all_chars stray t = true ->
  parse_marker (marker_text X Y t) info =
    (<["total_pages" := PyInt (Z.of_N Y)]>
       (<["current_page" := PyInt (Z.of_N X)]> info), None).
Proof.
  intros Ht. unfold parse_marker.
  destruct (split_marker_text X Y t Ht) as [H1 H2].
  rewrite H1. change (index [""; ?r] 1) with (Returned r). cbv iota.
  rewrite H2. change (index [?a; ?b] 0) with (Returned a).
  change (index [?a; ?b] 1) with (Returned b). cbv iota beta zeta.
  unfold to_int. rewrite int_str_of_N.
  rewrite replace_remove, remove_char_app, remove_char_absent
    by apply (digits_absent ">" _ eq_refl (str_of_N_digits Y)).
  now rewrite (int_numeral_blanks Y _ (remove_stray t Ht)).
Qed.

Lemma marker_text_gate X Y t :
  contains "Page" (marker_text X Y t) && contains "of" (marker_text X Y t) = true.
Proof.
  unfold marker_text. apply andb_true_intro. split.
  - change "Page " with ("Page" +:+ " "). rewrite app_assoc'. apply contains_prefix.
  - change " of " with (" " +:+ "of" +:+ " ").
    rewrite !app_assoc'. rewrite <- (app_assoc' "Page "), <- (app_assoc' _ " ").
    apply contains_middle.
Qed.

(** Whatever the text, the body of the [try] leaves both page numbers in
    the dictionary and ends normally or with one of the two exceptions
    that the handler catches. *)
Lemma parse_marker_sound text info c t :
  info !! "current_page" = Some (PyInt c) ->
  info !! "total_pages" = Some (PyInt t) ->
  exists c' t',
    (parse_marker text info).1 !! "current_page" = Some (PyInt c') /\
    (parse_marker text info).1 !! "total_pages" = Some (PyInt t') /\
    (forall k, k <> "current_page" -> k <> "total_pages" ->
               (parse_marker text info).1 !! k = info !! k) /\
    match (parse_marker text info).2 with
    | Some e => is_value_or_index_error e = true
    | None => True
    end.
Proof.
  intros Hc Ht. unfold parse_marker, index, to_int.
  repeat match goal with
         | |- context [match ?l !! ?i with _ => _ end] => destruct (l !! i)
         | |- context [match int ?x with _ => _ end] => destruct (int x)
         end; cbn [fst snd];
    eexists _, _; (split; [|split; [|split]]);
    try (intros k ? ?); simplify_map_eq; done.
Qed.

(** The dictionary of line 71. *)
Definition initial_info (page : Z) : gmap string pyval :=
  <["total_pages" := PyInt page]> (<["current_page" := PyInt page]> ∅).

(** The dictionary after lines 75-82, for a marker with text [text]. *)
Definition parsed_info (page : Z) (text : string) : gmap string pyval :=
  if contains "Page" text && contains "of" text
  then (parse_marker text (initial_info page)).1
  else initial_info page.

Lemma parsed_info_pages page text :
  exists c t,
    parsed_info page text !! "current_page" = Some (PyInt c) /\
    parsed_info page text !! "total_pages" = Some (PyInt t) /\
    parsed_info page text !! "has_previous" = None /\
    parsed_info page text !! "has_next" = None.
Proof.
  unfold parsed_info.
  destruct (contains "Page" text && contains "of" text).
  - destruct (parse_marker_sound text (initial_info page) page page)
      as (c & t & Hc & Ht & Hk & _); [done..|].
    exists c, t. rewrite Hc, Ht, !Hk; done.
  - exists page, page. done.
Qed.

Lemma read_marker_run text info s c t :
  info !! "current_page" = Some (PyInt c) ->
  info !! "total_pages" = Some (PyInt t) ->
  exists s',
    read_marker text info s =
      (Returned (if contains "Page" text && contains "of" text
                 then (parse_marker text info).1 else info), s') /\
    PAGE s' = PAGE s /\ dirs s' = dirs s /\
    (s' = s \/ s' = log (EPrint ("Warning: Pagination text parsing failed with value '"
                                 +:+ text +:+ "'")) s).
Proof.
  intros Hc Ht. unfold read_marker.
  destruct (contains "Page" text && contains "of" text); [|exists s; auto].
  pose proof (parse_marker_sound text info c t Hc Ht) as (_ & _ & _ & _ & _ & He).
  destruct (parse_marker text info) as [info' [e|]]; cbn [fst snd] in *.
  - rewrite He. run_m. eexists. split; [reflexivity|]. auto.
  - exists s. auto.
Qed.

Lemma set_neighbours_run info s c t :
  info !! "current_page" = Some (PyInt c) ->
  info !! "total_pages" = Some (PyInt t) ->
  exists info',
    set_neighbours info s = (Returned info', s) /\
    info' !! "current_page" = Some (PyInt c) /\
    info' !! "total_pages" = Some (PyInt t) /\
    info' !! "has_previous" = Some (if (1 <? c)%Z then PyInt (c - 1) else PyNone) /\
    info' !! "has_next" = Some (if (c <? t)%Z then PyInt (c + 1) else PyNone).
Proof.
  intros Hc Ht. unfold set_neighbours, get_int. rewrite Hc. run_m.
  rewrite lookup_insert_ne, Hc by done. rewrite lookup_insert_ne, Ht by done.
  eexists. split; [reflexivity|]. simplify_map_eq. done.
Qed.

(** What [get_pagination_info] returns, field by field. *)
Lemma get_pagination_info_shape soup s :
  exists info s',
    get_pagination_info soup s = (Returned info, s') /\
    PAGE s' = PAGE s /\ dirs s' = dirs s /\
    match Bs4.find is_result_pages soup with
    | Some div =>
        let info0 := parsed_info (PAGE s) (Bs4.get_text_strip div) in
        exists c t,
          info0 !! "current_page" = Some (PyInt c) /\
          info0 !! "total_pages" = Some (PyInt t) /\
          info !! "current_page" = Some (PyInt c) /\
          info !! "total_pages" = Some (PyInt t) /\
          info !! "has_previous" =
            Some (if (1 <? c)%Z then PyInt (c - 1) else PyNone) /\
          info !! "has_next" =
            Some (if (c <? t)%Z then PyInt (c + 1) else PyNone)
    | None =>
        s' = s /\
        info !! "current_page" = Some (PyInt (PAGE s)) /\
        info !! "total_pages" = Some (PyInt (PAGE s)) /\
        info !! "has_previous" = None /\
        info !! "has_next" = None
    end.
Proof.
  unfold get_pagination_info. run_m.
  destruct (Bs4.find is_result_pages soup) as [div|].
  2:{ eexists _, _. repeat split; done. }
  set (text := Bs4.get_text_strip div).
  change (<["total_pages":=PyInt (PAGE s)]> (<["current_page":=PyInt (PAGE s)]> ∅))
    with (initial_info (PAGE s)).
  destruct (read_marker_run text (initial_info (PAGE s)) s _ _ eq_refl eq_refl)
    as (s' & -> & HP & HD & _).
  destruct (parsed_info_pages (PAGE s) text) as (c & t & Hc & Ht & _ & _).
  fold (parsed_info (PAGE s) text).
  destruct (set_neighbours_run _ s' c t Hc Ht) as (info' & -> & H).
  exists info', s'. split; [reflexivity|]. split; [done|]. split; [done|].
  exists c, t. tauto.
Qed.

End Pagination.




(** The parser never raises. *)
Lemma get_pagination_info_returns soup s :
  exists info, (get_pagination_info soup s).1 = Returned info.
Proof.
  destruct (get_pagination_info_shape soup s) as (info & s' & -> & _).
  now exists info.
Qed.

(** C2 fails on the code: for the marker "Page 3 of x" on requested page
    1 the parser warns and returns [current_page == 3] with
    [total_pages == 1]; only one of the two fields falls back. *)
Theorem partial_update_on_bad_total :
  exists info,
    (get_pagination_info (marker_page "Page 3 of x") (State 1 ∅ [])).1
      = Returned info /\
    info !! "current_page" = Some (PyInt 3) /\
    info !! "total_pages" = Some (PyInt 1) /\
    trace (get_pagination_info (marker_page "Page 3 of x") (State 1 ∅ [])).2 =
      [EPrint "Warning: Pagination text parsing failed with value 'Page 3 of x'"].
Proof.
  eexists. split; [reflexivity|]. repeat split; reflexivity.
Qed.

(** C3, as the code has it. Every dictionary the parser returns holds
    both page numbers; [has_next] is present iff
    [current_page < total_pages]; [has_previous] is present iff the page
    has a pagination marker node and [current_page > 1]. *)
Theorem pagination_neighbours soup s :
  exists info c t,
    (get_pagination_info soup s).1 = Returned info /\
    info !! "current_page" = Some (PyInt c) /\
    info !! "total_pages" = Some (PyInt t) /\
    (present info "has_next" <-> (c < t)%Z) /\
    (present info "has_previous" <->
       is_Some (Bs4.find is_result_pages soup) /\ (1 < c)%Z).
Proof.
  destruct (get_pagination_info_shape soup s) as (info & s' & Heq & _ & _ & H).
  rewrite Heq. unfold present, dict_get.
  destruct (Bs4.find is_result_pages soup) as [div|].
  - cbn zeta in H. destruct H as (c & t & _ & _ & Hc & Ht & Hp & Hn).
    exists info, c, t. rewrite Hp, Hn. cbn [default fst].
    split; [done|]. split; [done|]. split; [done|]. split.
    + destruct (Z.ltb_spec c t); split; try done; lia.
    + destruct (Z.ltb_spec 1 c); split; try done. intros [_ ?]; lia.
  - destruct H as (_ & Hc & Ht & Hp & Hn).
    exists info, (PAGE s), (PAGE s). rewrite Hp, Hn. cbn [default fst].
    split; [done|]. split; [done|]. split; [done|]. split.
    + split; [done|lia].
    + split; [done|]. intros [[? [=]] _].
Qed.

(** C3 as stated fails: on requested page 2, a page without a pagination
    marker node yields [current_page == 2] and no [has_previous]. *)
Lemma no_marker_no_previous :
  Bs4.find is_result_pages (Bs4.Tag "[document]" [] []) = None /\
  exists info,
    (get_pagination_info (Bs4.Tag "[document]" [] []) (State 2 ∅ [])).1
      = Returned info /\
    info !! "current_page" = Some (PyInt 2) /\
    dict_get info "has_previous" = PyNone.
Proof.
  split; [reflexivity|]. eexists. repeat split; reflexivity.
Qed.

(* ===================================================================== *)
(** * Feed fetching and download *)
(* ===================================================================== *)

(** The [add_uris] calls of a trace: the URL list and the [dir] option of
    each, in order. *)
Definition submissions (tr : list event) : list (list (option string) * string) :=
  omap (fun ev => match ev with EAddUris uris dir => Some (uris, dir) | _ => None end) tr.



(** Line 119. *)
Definition book_dir (book_title : string) : string :=
  Py.path_join AUDIOBOOKS_DIR (book_title_cleaned book_title).

(** Whether the system accepts the name [p]. *)
Definition accepted (p : string) : bool :=
  match path_error p with None => true | Some _ => false end.

(** Whether [os.makedirs(path)] can succeed: the system accepts [path]
    and each of its parents. *)
Definition creatable (path : string) : bool := forallb accepted (chain path).

Section Download.
Variable E : env.

Lemma mkdir_chain_ok ps ds :
  forallb accepted ps = true -> mkdir_chain ps ds = (ds ∪ list_to_set ps, None).
Proof.
  revert ds. induction ps as [|p ps IH]; intros ds; cbn [forallb mkdir_chain].
  - intros _. f_equal. set_solver.
  - intros H. apply andb_prop in H as [Hp H]. unfold accepted in Hp.
    destruct (path_error p); [discriminate|]. rewrite (IH _ H). f_equal. set_solver.
Qed.

Lemma mkdir_chain_mono ps ds : ds ⊆ (mkdir_chain ps ds).1.
Proof.
  revert ds. induction ps as [|p ps IH]; intros ds; cbn [mkdir_chain]; [done|].
  destruct (path_error p); [done|]. specialize (IH (ds ∪ {[p]})). set_solver.
Qed.

Lemma makedirs_ok path s :
  creatable path = true ->
  makedirs path true s =
    (Returned tt,
     set_dirs (dirs s ∪ list_to_set (chain path)) (log (EMakedirs path) s)).
Proof.
  intros H. unfold makedirs. rewrite (mkdir_chain_ok _ _ H).
  now rewrite andb_false_r.
Qed.



Lemma submissions_app tr1 tr2 :
  submissions (tr1 ++ tr2) = submissions tr1 ++ submissions tr2.
Proof. unfold submissions. apply omap_app. Qed.



(** One [add_uris] call per URL, whatever the daemon answers. *)
Lemma submit_run dir url s :
  exists s' new,
    submit E dir url s = (Returned tt, s') /\
    PAGE s' = PAGE s /\ dirs s' = dirs s /\
    trace s' = trace s ++ new /\
    submissions new = [([url], dir)].
Proof.
  unfold submit, add_uris.
  destruct (add_uris_error E (trace s) [url] dir) as [msg|].
  - eexists _, [EAddUris [url] dir; EPrint _]. split; [reflexivity|].
    cbn. rewrite <- app_assoc. done.
  - eexists _, [EAddUris [url] dir]. split; [reflexivity|]. done.
Qed.

Lemma submit_all_run dir urls s :
  exists s' new,
    for_each urls (submit E dir) s = (Returned tt, s') /\
    PAGE s' = PAGE s /\ dirs s' = dirs s /\
    trace s' = trace s ++ new /\
    submissions new = (fun url => ([url], dir)) <$> urls.
Proof.
  revert s. induction urls as [|url urls IH]; intros s.
  - exists s, []. cbn. rewrite app_nil_r. done.
  - cbn [for_each]. run_m.
    destruct (submit_run dir url s) as (s1 & new1 & -> & HP1 & HD1 & HT1 & HS1).
    destruct (IH s1) as (s2 & new2 & -> & HP2 & HD2 & HT2 & HS2).
    exists s2, (new1 ++ new2). split; [reflexivity|].
    rewrite HP2, HD2, HT2, HT1, submissions_app, HS1, HS2, <- app_assoc. done.
Qed.

(** The whole of [download_book] for a feed whose title can be read and
    gives a directory that can be created. *)
Lemma download_book_run rss_feed s t :
  feed_title rss_feed = Some t ->
  creatable (book_dir t) = true ->
  exists s' new,
    download_book E rss_feed s = (Returned tt, s') /\
    PAGE s' = PAGE s /\
    dirs s' = dirs s ∪ list_to_set (chain (book_dir t)) /\
    trace s' = trace s ++ EMakedirs (book_dir t) :: new ++ [EPrint "Download started!"] /\
    submissions new = (fun url => ([url], book_dir t)) <$> mp3_urls rss_feed /\
    (mp3_urls rss_feed = [] -> new = []).
Proof.
  intros Ht Hcre. unfold download_book. rewrite Ht. run_m. fold (book_dir t).
  rewrite (makedirs_ok _ s Hcre).
  set (s1 := set_dirs _ _).
  destruct (submit_all_run (book_dir t) (mp3_urls rss_feed) s1)
    as (s2 & new & Hrun & HP2 & HD2 & HT2 & HS2).
  rewrite Hrun. eexists _, new. split; [reflexivity|]. cbn.
  rewrite HP2, HD2, HT2. unfold s1. cbn. rewrite <- !app_assoc.
  repeat split; try done.
  intros Hnil. rewrite Hnil in Hrun. cbn in Hrun. injection Hrun as <-.
  rewrite <- (app_nil_r (trace s1)) in HT2 at 1.
  now apply app_inv_head in HT2.
Qed.

(** A title element without text ends [download_book] before anything
    is done. *)
Lemma download_book_no_title_text rss_feed s :
  feed_title rss_feed = None ->
  download_book E rss_feed s = (Raised AttributeError, s).
Proof. intros Ht. unfold download_book. now rewrite Ht. Qed.

Lemma makedirs_creates path s :
  creatable path = true ->
  (makedirs path true s).1 = Returned tt /\
  dirs s ⊆ dirs (makedirs path true s).2 /\
  path ∈ dirs (makedirs path true s).2 /\
  (forall parent, parent ∈ ancestors path -> parent ∈ dirs (makedirs path true s).2).
Proof.
  intros H. rewrite (makedirs_ok _ s H). cbn. unfold chain.
  repeat split; [set_solver|set_solver|]. intros parent Hp.
  apply elem_of_union. right. apply elem_of_list_to_set, elem_of_app. now left.
Qed.

Lemma makedirs_trace path exist_ok s :
  PAGE (makedirs path exist_ok s).2 = PAGE s /\
  trace (makedirs path exist_ok s).2 = trace s ++ [EMakedirs path].
Proof.
  unfold makedirs. destruct (mkdir_chain (chain path) (dirs s)) as [ds [e|]];
    [done|]. now destruct (_ && _).
Qed.



End Download.

(** A world in which nothing answers: used to run the script on
    concrete pages and feeds. *)
Definition quiet_env : env :=
  Env (fun _ _ => Failed "unreachable")
      (fun _ => Bs4.Tag "[document]" [] [])
      (fun _ => None)
      (fun _ _ _ => None)
      false.

Definition fresh : state := State 1 ∅ [].

Definition chapter (url : string) : ET.element :=
  ET.Element "item" [] None
    [ET.Element "title" [] (Some "Chapter") [];
     ET.Element "enclosure" [("url", url); ("type", "audio/mpeg")] None []].






(** A feed whose title is 256 times the letter [a]. *)
Definition overlong_feed : ET.element :=
  ET.Element "rss" [] None
    [ET.Element "channel" [] None
       [ET.Element "title" [] (Some (Py.join "" (replicate 256 "a"))) [];
        chapter "http://example.org/a_01.mp3"]].




(** Nor is a job submitted when the directory name is refused: a title of
    256 letters makes [os.makedirs] raise [OSError] once [audiobooks]
    is there. *)
Lemma overlong_title_refused :
  feed_title overlong_feed = Some (Py.join "" (replicate 256 "a")) /\
  creatable (book_dir (Py.join "" (replicate 256 "a"))) = false /\
  (download_book quiet_env overlong_feed fresh).1 = Raised OSError /\
  dirs (download_book quiet_env overlong_feed fresh).2 = {[ "audiobooks" ]} /\
  submissions (trace (download_book quiet_env overlong_feed fresh).2) = [].
Proof. repeat split; vm_compute; reflexivity. Qed.







(** A server that answers every request with status 200 and the body
    ["<rss>"], which is not well-formed XML. *)
Definition truncated_env : env :=
  Env (fun _ _ => Response 200 "<rss>")
      (fun _ => Bs4.Tag "[document]" [] [])
      (fun _ => None)
      (fun _ _ _ => None)
      false.

Section Fetch.
Variable E : env.

(** A transport failure is caught: the error is printed and [None]
    returned. *)
Lemma fetch_rss_feed_transport_failure url s msg :
  http E (trace s) (url +:+ "/feed") = Failed msg ->
  fetch_rss_feed E url s =
    (Returned None,
     log (EPrint ("Error fetching RSS feed: " +:+ msg)) (log (EGet (url +:+ "/feed")) s)).
Proof.
  intros H. unfold fetch_rss_feed, try_except, requests_get. run_m.
  now rewrite H.
Qed.

(** So is an error status. *)
Lemma fetch_rss_feed_http_error url s status body :
  http E (trace s) (url +:+ "/feed") = Response status body ->
  ((400 <=? status) && (status <? 600))%Z = true ->
  fetch_rss_feed E url s =
    (Returned None,
     log (EPrint ("Error fetching RSS feed: " +:+ "HTTP status " +:+ str_of_Z status))
         (log (EGet (url +:+ "/feed")) s)).
Proof.
  intros H Hst. unfold fetch_rss_feed, try_except, requests_get, raise_for_status.
  run_m. rewrite H. cbn. now rewrite Hst.
Qed.

(** A well-formed body is returned parsed. *)
Lemma fetch_rss_feed_parsed url s status body root :
  http E (trace s) (url +:+ "/feed") = Response status body ->
  ((400 <=? status) && (status <? 600))%Z = false ->
  fromstring E body = Some root ->
  fetch_rss_feed E url s = (Returned (Some root), log (EGet (url +:+ "/feed")) s).
Proof.
  intros H Hst Hx. unfold fetch_rss_feed, try_except, requests_get, raise_for_status.
  run_m. rewrite H. cbn. rewrite Hst. cbn. now rewrite Hx.
Qed.

End Fetch.

(** C6 fails on the code: when the server answers with a body that is
    not well-formed XML, [fetch_rss_feed] does not return [None]; the
    parser's [ParseError] leaves the function, and nothing is printed. *)
Theorem malformed_body_raises E url s status body :
  http E (trace s) (url +:+ "/feed") = Response status body ->
  ((400 <=? status) && (status <? 600))%Z = false ->
  fromstring E body = None ->
  fetch_rss_feed E url s = (Raised ParseError, log (EGet (url +:+ "/feed")) s).
Proof.
  intros H Hst Hx. unfold fetch_rss_feed, try_except, requests_get, raise_for_status.
  run_m. rewrite H. cbn. rewrite Hst. cbn. now rewrite Hx.
Qed.

Lemma malformed_body_raises_witness :
  fetch_rss_feed truncated_env "http://www.loyalbooks.com/book/emma" fresh =
    (Raised ParseError, log (EGet ("http://www.loyalbooks.com/book/emma" +:+ "/feed")) fresh).
Proof.
  apply (malformed_body_raises truncated_env _ fresh 200 "<rss>"); reflexivity.
Defined.

(* ===================================================================== *)
(** * The prompt *)
(* ===================================================================== *)

Section Prompt.
Variable E : env.

Lemma to_int_str_of_N n : to_int (Py.str_of_N n) = Returned (Z.of_N n).
Proof. unfold to_int. now rewrite PyFacts.int_str_of_N. Qed.

(** Typing the number [i + 1] selects [books[i]]. *)
Lemma handle_choice_selects books info i b s :
  books !! i = Some b ->
  handle_choice E books info (Py.str_of_N (N.of_nat (S i))) s =
    match link b with
    | Some url =>
        if Bs4.nonempty url then
          (rss_feed ← fetch_rss_feed E url ;
           match rss_feed with
           | Some feed =>
               if ET.truthy feed then download_book E feed ;; mret Break
               else print "Failed to fetch the RSS feed. Please try again." ;;
                    mret Break
           | None =>
               print "Failed to fetch the RSS feed. Please try again." ;;
               mret Break
           end) s
        else (Returned Break, s)
    | None => (Returned Break, s)
    end.
Proof.
  intros Hb. unfold handle_choice.
  rewrite PyFacts.str_of_N_isdigit, to_int_str_of_N. run_m.
  pose proof (lookup_lt_Some _ _ _ Hb) as Hlt.
  replace ((1 <=? Z.of_N (N.of_nat (S i))) && (Z.of_N (N.of_nat (S i)) <=? Z.of_nat (length books)))%Z
    with true by (symmetry; apply andb_true_intro; split; apply Z.leb_le; lia).
  replace (Z.to_nat (Z.of_N (N.of_nat (S i)) - 1)) with i by lia.
  rewrite Hb. destruct (link b) as [url|]; [|reflexivity].
  destruct (Bs4.nonempty url); reflexivity.
Qed.

(** The sibling path: a book with a link whose feed cannot be fetched is
    reported to the user. *)
Lemma failed_feed_is_reported books info i b url msg s :
  books !! i = Some b -> link b = Some url -> Bs4.nonempty url = true ->
  http E (trace s) (url +:+ "/feed") = Failed msg ->
  handle_choice E books info (Py.str_of_N (N.of_nat (S i))) s =
    (Returned Break,
     log (EPrint "Failed to fetch the RSS feed. Please try again.")
       (log (EPrint ("Error fetching RSS feed: " +:+ msg))
          (log (EGet (url +:+ "/feed")) s))).
Proof.
  intros Hb Hl Hne Hh. rewrite (handle_choice_selects _ _ _ _ _ Hb), Hl, Hne.
  run_m. now rewrite (fetch_rss_feed_transport_failure E url s msg Hh).
Qed.

End Prompt.

(** C7 on the code: selecting a valid index whose book has no detail
    link leaves the inner loop with the state untouched: no request, no
    job, and nothing printed. The selection is a no-op, and it is silent. *)
Theorem no_link_is_silent E books info i b s :
  books !! i = Some b ->
  link b = None ->
  handle_choice E books info (Py.str_of_N (N.of_nat (S i))) s = (Returned Break, s).
Proof.
  intros Hb Hl. now rewrite (handle_choice_selects E _ _ _ _ _ Hb), Hl.
Qed.

Lemma no_link_is_silent_witness :
  handle_choice quiet_env [Book "Emma" "Jane Austen" None None] ∅
    (Py.str_of_N (N.of_nat 1)) fresh = (Returned Break, fresh).
Proof.
  apply (no_link_is_silent quiet_env [Book "Emma" "Jane Austen" None None] ∅ 0
           (Book "Emma" "Jane Austen" None None) fresh); reflexivity.
Defined.

(* ===================================================================== *)
(** * The catalog *)
(* ===================================================================== *)

(** Whether the entry has a bold title node. *)
Definition has_title (entry : Bs4.node) : bool :=
  match Bs4.find_ctx (Bs4.has_name "b") entry with
  | Some _ => true
  | None => false
  end.

(** Whether [n] is a plain-text node that is not blank. *)
Definition is_author_text (n : Bs4.node) : bool :=
  match n with
  | Bs4.NavigableString t => Bs4.nonempty (Py.strip t)
  | Bs4.Tag _ _ _ => false
  end.

(** A page with two catalog entries: a book without an author line, and
    a cell without a bold title. *)
Definition two_cell_page : Bs4.node :=
  Bs4.Tag "[document]" []
    [Bs4.Tag "table" []
       [Bs4.Tag "td" [("class", "layout2-blue")]
          [Bs4.Tag "a" [("href", "/book/emma")]
             [Bs4.Tag "img" [("src", "/image/emma.jpg")] []];
           Bs4.Tag "b" [] [Bs4.NavigableString " Emma "];
           Bs4.Tag "br" [] [];
           Bs4.NavigableString "   "];
        Bs4.Tag "td" [("class", "layout2-blue")]
          [Bs4.NavigableString "Advertisement"]]].

Section Catalog.
Variable E : env.

Lemma entry_book_untitled entry :
  has_title entry = false -> entry_book E entry = Returned None.
Proof.
  unfold has_title, entry_book.
  now destruct (Bs4.find_ctx (Bs4.has_name "b") entry) as [[? ?]|].
Qed.

Lemma entry_book_titled entry b :
  entry_book E entry = Returned (Some b) ->
  exists title_tag sibs,
    Bs4.find_ctx (Bs4.has_name "b") entry = Some (title_tag, sibs) /\
    title b = Py.strip (Bs4.text title_tag) /\
    author b = author_walk E sibs.
Proof.
  unfold entry_book.
  destruct (Bs4.find_ctx (Bs4.has_name "b") entry) as [[title_tag sibs]|]; [|discriminate].
  intros H. exists title_tag, sibs. split; [reflexivity|].
  destruct (Bs4.find (Bs4.has_name "img") entry) as [img|].
  - destruct (Bs4.get_attr "src" img); [|discriminate].
    injection H as <-. done.
  - injection H as <-. done.
Qed.

(** Without a non-blank text node among the following siblings the walk
    ends with the default author. *)
Lemma author_walk_default sibs :
  Forall (fun n => is_author_text n = false) sibs ->
  author_walk E sibs = "Unknown Author".
Proof.
  induction 1 as [|n sibs Hn _ IH]; [reflexivity|].
  cbn [author_walk]. destruct n as [t|name attrs cs].
  - cbn [is_author_text] in Hn. rewrite Hn.
    now destruct (Bs4.truthy _ && _).
  - now destruct (Bs4.truthy _ && _).
Qed.

(** The loop appends one book per titled entry, in order, and nothing
    for an entry without a title. *)
Lemma collect_books_run entries acc books :
  collect_books E entries acc = Returned books ->
  exists new,
    books = acc ++ new /\
    Forall2 (fun entry b => entry_book E entry = Returned (Some b))
            (filter (fun entry => has_title entry = true) entries) new /\
    length new + length (filter (fun entry => has_title entry = false) entries)
      = length entries.
Proof.
  revert acc. induction entries as [|entry entries IH]; intros acc.
  - cbn. intros [= <-]. exists []. rewrite app_nil_r. repeat split. constructor.
  - cbn [collect_books]. rewrite !filter_cons.
    destruct (entry_book E entry) as [[b|]|e] eqn:Hentry; [| |discriminate].
    + destruct (entry_book_titled _ _ Hentry) as (tt & sibs & Hfind & _).
      assert (Ht : has_title entry = true) by (unfold has_title; now rewrite Hfind).
      intros H. destruct (IH _ H) as (new & -> & Hall & Hlen).
      exists (b :: new). rewrite <- app_assoc.
      rewrite decide_True by exact Ht. rewrite decide_False by (rewrite Ht; discriminate).
      repeat split; [now constructor|]. cbn [length]. lia.
    + assert (Ht : has_title entry = false).
      { unfold has_title. unfold entry_book in Hentry.
        destruct (Bs4.find_ctx (Bs4.has_name "b") entry) as [[tt sibs]|]; [|reflexivity].
        destruct (Bs4.find (Bs4.has_name "img") entry) as [img|]; [|discriminate].
        destruct (Bs4.get_attr "src" img); discriminate. }
      intros H. destruct (IH _ H) as (new & -> & Hall & Hlen).
      exists new. rewrite decide_False by (rewrite Ht; discriminate).
      rewrite decide_True by exact Ht. repeat split; [exact Hall|]. cbn [length]. lia.
Qed.

(** When the empty filter of [find_next_sibling()] accepts tags only,
    the walk never meets a text node: the author is always the default. *)
Lemma author_walk_tags_only sibs :
  strings_match E = false -> author_walk E sibs = "Unknown Author".
Proof.
  intros Hsm. induction sibs as [|n sibs IH]; [reflexivity|].
  cbn [author_walk]. rewrite Hsm, IH.
  destruct n as [t|name attrs cs]; cbn; [now rewrite andb_false_r|reflexivity].
Qed.

End Catalog.

(** C8. Whenever the parser returns a listing for a page: the listing
    has one book per catalog entry with a bold title node, in order, so
    its length is the number of entries less the number of entries
    without one; an entry without a bold title node is skipped; and a
    listed book whose title node is followed by no non-blank plain-text
    sibling has the author "Unknown Author". *)
Theorem catalog_skips_untitled E soup books :
  books_of_soup E soup = Returned books ->
  let entries := Bs4.find_all is_book_entry soup in
  length books + length (filter (fun entry => has_title entry = false) entries)
    = length entries /\
  Forall2 (fun entry b => entry_book E entry = Returned (Some b))
          (filter (fun entry => has_title entry = true) entries) books /\
  (forall entry, has_title entry = false -> entry_book E entry = Returned None) /\
  (forall entry b title_tag sibs,
     entry_book E entry = Returned (Some b) ->
     Bs4.find_ctx (Bs4.has_name "b") entry = Some (title_tag, sibs) ->
     Forall (fun n => is_author_text n = false) sibs ->
     author b = "Unknown Author").
Proof.
  intros H entries. unfold books_of_soup in H. fold entries in H.
  destruct (collect_books_run E entries [] books H) as (new & -> & Hall & Hlen).
  cbn [app]. split; [exact Hlen|]. split; [exact Hall|].
  split; [apply entry_book_untitled|].
  intros entry b title_tag sibs Hb Hfind Hsibs.
  destruct (entry_book_titled E _ _ Hb) as (tt' & sibs' & Hfind' & _ & ->).
  rewrite Hfind in Hfind'. injection Hfind' as _ <-.
  now apply author_walk_default.
Qed.

Lemma catalog_skips_untitled_witness :
  let books :=
    [Book "Emma" "Unknown Author" (Some "http://www.loyalbooks.com/book/emma")
          (Some "http://www.loyalbooks.com/image/emma.jpg")] in
  let entries := Bs4.find_all is_book_entry two_cell_page in
  length entries = 2 /\
  length books + length (filter (fun entry => has_title entry = false) entries)
    = length entries /\
  Forall2 (fun entry b => entry_book quiet_env entry = Returned (Some b))
          (filter (fun entry => has_title entry = true) entries) books /\
  (forall entry, has_title entry = false -> entry_book quiet_env entry = Returned None) /\
  (forall entry b title_tag sibs,
     entry_book quiet_env entry = Returned (Some b) ->
     Bs4.find_ctx (Bs4.has_name "b") entry = Some (title_tag, sibs) ->
     Forall (fun n => is_author_text n = false) sibs ->
     author b = "Unknown Author").
Proof.
  intros books entries. split; [reflexivity|].
  apply (catalog_skips_untitled quiet_env two_cell_page books). reflexivity.
Defined.

(** ** The directory name *)

Section DirectoryName.
Import Py PyFacts.








(** Not one of the letters [A]..[Z]. *)
Definition not_upper (c : ascii) : bool :=
  negb ((65 <=? nat_of_ascii c) && (nat_of_ascii c <=? 90))%nat.

Definition high (c : ascii) : bool := (128 <=? N_of_ascii c)%N.

(** A character read by [decode] is one ASCII byte, or bytes from 128
    on only. *)
Definition unit_ok (u : Utf8.uchar) : bool :=
  (Utf8.code u <? 128)%N && String.eqb (Utf8.raw u) (String (Utf8.byte (Utf8.code u)) "")
  || all_chars high (Utf8.raw u).

Lemma high_not_upper c : high c = true -> not_upper c = true.
Proof. destruct c as [[] [] [] [] [] [] [] []]; vm_compute; intros H; done. Qed.

Lemma byte_high k : (128 <= k < 256)%N -> high (Utf8.byte k) = true.
Proof.
  intros Hk. unfold high, Utf8.byte. rewrite N_ascii_embedding by lia.
  apply N.leb_le. lia.
Qed.

Lemma decode_units n s :
  (String.length s <= n)%nat -> Forall (fun u => unit_ok u = true) (Utf8.decode s).
Proof.
  revert s. induction n as [|n IH]; intros s Hlen.
  { destruct s; [constructor|cbn in Hlen; lia]. }
  destruct s as [|b0 s1]; [constructor|]. cbn [String.length] in Hlen.
  assert (H1 : Forall (fun u => unit_ok u = true) (Utf8.decode s1)) by (apply IH; lia).
  destruct (N_of_ascii b0 <? 128)%N eqn:H0.
  { cbn [Utf8.decode]. cbv zeta. rewrite H0. constructor; [|exact H1].
    unfold unit_ok. cbn [Utf8.code Utf8.raw]. rewrite H0. unfold Utf8.byte.
    now rewrite ascii_N_embedding, String.eqb_refl. }
  assert (Hb0 : high b0 = true).
  { unfold high. apply N.ltb_ge in H0. now apply N.leb_le. }
  assert (Hlone : unit_ok (Utf8.lone b0) = true).
  { unfold unit_ok, Utf8.lone. cbn [Utf8.raw all_chars]. rewrite Hb0. apply orb_true_r. }
  destruct s1 as [|b1 s2].
  { cbn [Utf8.decode]. cbv zeta. rewrite H0. now constructor. }
  cbn [String.length] in Hlen.
  assert (Hcont : forall v, Utf8.is_cont (N_of_ascii v) = true -> high v = true).
  { intros v Hv. unfold Utf8.is_cont in Hv. apply andb_prop in Hv as [Hv _]. exact Hv. }
  change (Utf8.decode (String b0 (String b1 s2))) with
    (if (N_of_ascii b0 <? 128)%N
     then Utf8.UChar (N_of_ascii b0) (String b0 "") :: Utf8.decode (String b1 s2)
     else if Utf8.valid2 (N_of_ascii b0) (N_of_ascii b1)
          then Utf8.UChar ((N_of_ascii b0 - 192) * 64 + (N_of_ascii b1 - 128))
                          (String b0 (String b1 "")) :: Utf8.decode s2
          else match s2 with
               | EmptyString => Utf8.lone b0 :: Utf8.decode (String b1 s2)
               | String b2 s3 =>
                   if Utf8.valid3 (N_of_ascii b0) (N_of_ascii b1) (N_of_ascii b2)
                   then Utf8.UChar ((N_of_ascii b0 - 224) * 4096
                                    + (N_of_ascii b1 - 128) * 64 + (N_of_ascii b2 - 128))
                                   (String b0 (String b1 (String b2 ""))) :: Utf8.decode s3
                   else match s3 with
                        | EmptyString => Utf8.lone b0 :: Utf8.decode (String b1 s2)
                        | String b3 s4 =>
                            if Utf8.valid4 (N_of_ascii b0) (N_of_ascii b1)
                                 (N_of_ascii b2) (N_of_ascii b3)
                            then Utf8.UChar ((N_of_ascii b0 - 240) * 262144
                                             + (N_of_ascii b1 - 128) * 4096
                                             + (N_of_ascii b2 - 128) * 64
                                             + (N_of_ascii b3 - 128))
                                   (String b0 (String b1 (String b2 (String b3 ""))))
                                 :: Utf8.decode s4
                            else Utf8.lone b0 :: Utf8.decode (String b1 s2)
                        end
               end).
  rewrite H0.
  destruct (Utf8.valid2 _ _) eqn:H2.
  { constructor; [|apply IH; lia].
    unfold unit_ok. cbn [Utf8.raw all_chars]. rewrite Hb0. unfold Utf8.valid2 in H2.
    apply andb_prop in H2 as [_ H2]. rewrite (Hcont _ H2). apply orb_true_r. }
  destruct s2 as [|b2 s3]; [now constructor|].
  cbn [String.length] in Hlen.
  destruct (Utf8.valid3 _ _ _) eqn:H3.
  { constructor; [|apply IH; lia].
    unfold unit_ok. cbn [Utf8.raw all_chars]. rewrite Hb0. unfold Utf8.valid3 in H3.
    apply andb_prop in H3 as [H3 _]. apply andb_prop in H3 as [H3 _].
    apply andb_prop in H3 as [H3 Hc2]. apply andb_prop in H3 as [_ Hc1].
    rewrite (Hcont _ Hc1), (Hcont _ Hc2). apply orb_true_r. }
  destruct s3 as [|b3 s4]; [now constructor|].
  cbn [String.length] in Hlen.
  destruct (Utf8.valid4 _ _ _ _) eqn:H4; [|now constructor].
  constructor; [|apply IH; lia].
  unfold unit_ok. cbn [Utf8.raw all_chars]. rewrite Hb0. unfold Utf8.valid4 in H4.
  apply andb_prop in H4 as [H4 _]. apply andb_prop in H4 as [H4 _].
  apply andb_prop in H4 as [H4 Hc3]. apply andb_prop in H4 as [H4 Hc2].
  apply andb_prop in H4 as [_ Hc1].
  rewrite (Hcont _ Hc1), (Hcont _ Hc2), (Hcont _ Hc3). apply orb_true_r.
Qed.

(** The lower-case forms in the table lie past [Z] and are code
    points. *)
Definition run_ok (run : N * N * N * N) : bool :=
  let '(lo, hi, _, target) := run in
  (lo <=? hi)%N && (90 <? target)%N && (target + (hi - lo) <? 1114112)%N.

Lemma find_lower_range runs n t :
  forallb run_ok runs = true -> Unicode.find_lower runs n = Some t ->
  (90 < t < 1114112)%N.
Proof.
  induction runs as [|[[[lo hi] step] target] runs IH]; [discriminate|].
  cbn [forallb Unicode.find_lower]. intros H. apply andb_prop in H as [Hrun H].
  destruct (_ && _ && _) eqn:Hin; [|now apply IH].
  intros [= <-]. unfold run_ok in Hrun.
  apply andb_prop in Hrun as [Hrun Hhi]. apply andb_prop in Hrun as [Hlo Htarget].
  apply andb_prop in Hin as [Hin _]. apply andb_prop in Hin as [Hn1 Hn2].
  apply N.leb_le in Hlo, Hn1, Hn2. apply N.ltb_lt in Htarget, Hhi. lia.
Qed.

Lemma cont_byte_high d : high (Utf8.byte (128 + d mod 64)) = true.
Proof.
  apply byte_high. pose proof (N.mod_upper_bound d 64 ltac:(lia)) as H.
  revert H. generalize (d mod 64)%N. intros; lia.
Qed.

Lemma lead_byte_high base k m t :
  (0 < k)%N -> (t < k * m)%N -> (128 <= base)%N -> (base + m <= 256)%N ->
  high (Utf8.byte (base + t / k)) = true.
Proof.
  intros Hk Ht Hbase Hm. apply byte_high.
  assert (t / k < m)%N as H by (apply N.Div0.div_lt_upper_bound; lia).
  revert H. generalize (t / k)%N. intros; lia.
Qed.

Lemma encode_cp_not_upper t :
  (90 < t < 1114112)%N -> all_chars not_upper (Utf8.encode_cp t) = true.
Proof.
  intros Ht. unfold Utf8.encode_cp.
  destruct (N.ltb_spec t 128).
  { cbn [all_chars]. rewrite andb_true_r. unfold not_upper, Utf8.byte, nat_of_ascii.
    rewrite N_ascii_embedding by lia.
    apply negb_true_iff, andb_false_iff. right. apply Nat.leb_gt. lia. }
  destruct (N.ltb_spec t 2048).
  { cbn [all_chars].
    rewrite !high_not_upper; [reflexivity|apply cont_byte_high|].
    apply (lead_byte_high 192 64 32); lia. }
  destruct (N.ltb_spec t 65536).
  { cbn [all_chars].
    rewrite !high_not_upper; [reflexivity|apply cont_byte_high..|].
    apply (lead_byte_high 224 4096 16); lia. }
  cbn [all_chars].
  rewrite !high_not_upper; [reflexivity|apply cont_byte_high..|].
  apply (lead_byte_high 240 262144 5); lia.
Qed.

Lemma lower_runs_ok : forallb run_ok Unicode.lower_runs = true.
Proof. vm_compute. reflexivity. Qed.

Lemma all_chars_concat p pieces :
  Forall (fun piece => all_chars p piece = true) pieces ->
  all_chars p (Utf8.concat pieces) = true.
Proof.
  induction 1 as [|piece pieces Hp _ IH]; [reflexivity|].
  cbn [Utf8.concat]. now rewrite all_chars_app, Hp, IH.
Qed.

Lemma lower_chars_not_upper ac us :
  Forall (fun u => unit_ok u = true) us ->
  Forall (fun piece => all_chars not_upper piece = true) (lower_chars ac us).
Proof.
  intros H. revert ac. induction H as [|u us Hu _ IH]; intros ac; [constructor|].
  cbn [lower_chars]. constructor; [|apply IH].
  destruct (Utf8.code u =? 931)%N.
  { destruct (ac && word_ends us); vm_compute; reflexivity. }
  unfold Unicode.to_lower. destruct (Utf8.code u =? 304)%N; [vm_compute; reflexivity|].
  destruct (Unicode.find_lower Unicode.lower_runs (Utf8.code u)) as [t|] eqn:Ht.
  { cbn [fmap option_fmap option_map list_fmap Utf8.concat].
    rewrite all_chars_app, andb_true_r.
    apply encode_cp_not_upper, (find_lower_range _ _ _ lower_runs_ok Ht). }
  cbn [fmap option_fmap option_map].
  unfold unit_ok in Hu. apply orb_prop in Hu as [Hu|Hu].
  - apply andb_prop in Hu as [Hlt Hraw]. apply String.eqb_eq in Hraw. rewrite Hraw.
    cbn [all_chars]. rewrite andb_true_r.
    destruct (not_upper (Utf8.byte (Utf8.code u))) eqn:Hup; [reflexivity|exfalso].
    apply N.ltb_lt in Hlt. unfold not_upper, Utf8.byte, nat_of_ascii in Hup.
    rewrite N_ascii_embedding in Hup by lia.
    apply negb_false_iff, andb_prop in Hup as [H1 H2].
    apply Nat.leb_le in H1, H2.
    assert (Hfind : Unicode.find_lower Unicode.lower_runs (Utf8.code u)
                    = Some (Utf8.code u + 32)%N).
    { assert (Hcases : In (Utf8.code u)
                (N.of_nat <$> seq 65 26)) by (apply in_map_iff; exists (N.to_nat (Utf8.code u));
                  split; [lia|apply in_seq; lia]).
      cbn in Hcases. repeat (destruct Hcases as [<-|Hcases]; [vm_compute; reflexivity|]).
      destruct Hcases. }
    congruence.
  - apply (all_chars_impl high); [apply high_not_upper|exact Hu].
Qed.

Lemma all_chars_lower s :
  all_chars (fun c => negb ((65 <=? nat_of_ascii c) && (nat_of_ascii c <=? 90))%nat)
            (lower s) = true.
Proof.
  unfold lower. apply (all_chars_concat not_upper), lower_chars_not_upper.
  now apply (decode_units (String.length s)).
Qed.

Lemma all_chars_replace_char (p q : ascii -> bool) old new s :
  (forall c, p c = true -> Ascii.eqb c old = false -> q c = true) ->
  q new = true ->
  all_chars p s = true -> all_chars q (replace_char old new s) = true.
Proof.
  intros Hpq Hnew. induction s as [|c s IH]; [reflexivity|].
  cbn [all_chars replace_char]. intros H. apply andb_prop in H as [Hc H].
  rewrite (IH H), andb_true_r.
  destruct (Ascii.eqb c old) eqn:Heq; [exact Hnew|now apply Hpq].
Qed.

Lemma all_chars_remove_char (p q : ascii -> bool) old s :
  (forall c, p c = true -> Ascii.eqb c old = false -> q c = true) ->
  all_chars p s = true -> all_chars q (remove_char old s) = true.
Proof.
  intros Hpq. induction s as [|c s IH]; [reflexivity|].
  cbn [all_chars remove_char]. intros H. apply andb_prop in H as [Hc H].
  destruct (Ascii.eqb c old) eqn:Heq; [now apply IH|].
  cbn [all_chars]. now rewrite (Hpq c Hc Heq), (IH H).
Qed.

End DirectoryName.


(* ===================================================================== *)
(** * Further properties of the script *)
(* ===================================================================== *)

(** ** The characters of a directory name *)

(** The characters a directory name derived from a title can hold:
    anything but a space, an apostrophe, or an upper-case ASCII letter. *)
Definition dir_char (c : ascii) : bool :=
  negb (Ascii.eqb c " ") && negb (Ascii.eqb c "'")
  && negb ((65 <=? nat_of_ascii c) && (nat_of_ascii c <=? 90))%nat.


(** X1. Whatever the title, the derived directory name holds no space,
    no apostrophe and no upper-case ASCII letter. *)
Theorem book_title_cleaned_chars t :
  PyFacts.all_chars dir_char (book_title_cleaned t) = true.
Proof.
  unfold book_title_cleaned.
  rewrite PyFacts.replace_one_char, PyFacts.replace_remove.
  eapply all_chars_remove_char;
    [|eapply all_chars_replace_char; [| |apply all_chars_lower]].
  - intros c Hc Hq. unfold dir_char. rewrite Hq. exact Hc.
  - cbn beta. intros c Hc Hsp. now rewrite Hsp, Hc.
  - reflexivity.
Qed.

(** ** What a run leaves untouched *)

(** [m] relates every state to the state it ends in by [R], whether it
    returns or raises. *)
Definition always {A} (R : relation state) (m : M A) : Prop :=
  forall s, R s (m s).2.

(** The page and the directories are as before; the trace has grown. *)
Definition quiet : relation state :=
  fun s s' => PAGE s' = PAGE s /\ dirs s' = dirs s /\ trace s `prefix_of` trace s'.

(** The page is as before; no directory is gone; the trace has grown. *)
Definition grown : relation state :=
  fun s s' => PAGE s' = PAGE s /\ dirs s ⊆ dirs s' /\ trace s `prefix_of` trace s'.

(** The page has moved by at most [k]; no directory is gone; the trace
    has grown. *)
Definition within (k : nat) : relation state :=
  fun s s' =>
    (Z.abs (PAGE s' - PAGE s) <= Z.of_nat k)%Z /\
    dirs s ⊆ dirs s' /\ trace s `prefix_of` trace s'.

#[local] Instance quiet_preorder : PreOrder quiet.
Proof.
  split.
  - intros s. repeat split; reflexivity.
  - intros s1 s2 s3 (HP1 & HD1 & HT1) (HP2 & HD2 & HT2).
    repeat split; [congruence|congruence|now transitivity (trace s2)].
Qed.

#[local] Instance grown_preorder : PreOrder grown.
Proof.
  split.
  - intros s. repeat split; reflexivity.
  - intros s1 s2 s3 (HP1 & HD1 & HT1) (HP2 & HD2 & HT2).
    repeat split; [congruence|set_solver|now transitivity (trace s2)].
Qed.

Lemma quiet_grown s s' : quiet s s' -> grown s s'.
Proof. intros (HP & HD & HT). repeat split; [done|now rewrite HD|done]. Qed.

Lemma grown_within s s' : grown s s' -> within 0 s s'.
Proof. intros (HP & HD & HT). repeat split; [rewrite HP; lia|done|done]. Qed.

Lemma within_trans j k s1 s2 s3 :
  within j s1 s2 -> within k s2 s3 -> within (j + k) s1 s3.
Proof.
  intros (HP1 & HD1 & HT1) (HP2 & HD2 & HT2).
  repeat split; [lia|set_solver|now transitivity (trace s2)].
Qed.

Lemma within_le j k s s' : j <= k -> within j s s' -> within k s s'.
Proof. intros Hle (HP & HD & HT). repeat split; [lia|done|done]. Qed.

Section Always.
Context (R : relation state) `{!PreOrder R}.
Hypothesis R_log : forall ev s, R s (log ev s).

Lemma always_ret {A} (a : A) : always R (mret a).
Proof. intros s. reflexivity. Qed.

Lemma always_raise {A} e : always R (@raise A e).
Proof. intros s. reflexivity. Qed.

Lemma always_lift {A} (o : outcome A) : always R (lift o).
Proof. intros s. reflexivity. Qed.

Lemma always_bind {A B} (m : M A) (k : A -> M B) :
  always R m -> (forall a, always R (k a)) -> always R (m ≫= k).
Proof.
  intros Hm Hk s. unfold mbind, M_bind, bind. specialize (Hm s).
  destruct (m s) as [[a|e] s1]; cbn [snd] in *; [|exact Hm].
  transitivity s1; [exact Hm|apply Hk].
Qed.

Lemma always_try_except {A B} (body : M A) (sel : exn -> option B) handler :
  always R body -> (forall b, always R (handler b)) ->
  always R (try_except body sel handler).
Proof.
  intros Hm Hh s. unfold try_except. specialize (Hm s).
  destruct (body s) as [[a|e] s1]; cbn [snd] in *; [exact Hm|].
  destruct (sel e) as [b|]; [|exact Hm].
  transitivity s1; [exact Hm|apply Hh].
Qed.

Lemma always_emit ev : always R (emit ev).
Proof. intros s. apply R_log. Qed.

Lemma always_print line : always R (print line).
Proof. apply always_emit. Qed.

Lemma always_for_each {A} (xs : list A) body :
  (forall x, always R (body x)) -> always R (for_each xs body).
Proof.
  intros Hb. induction xs as [|x xs IH]; [apply always_ret|].
  cbn [for_each]. apply always_bind; [apply Hb|intros _; exact IH].
Qed.

Lemma always_get_PAGE : always R get_PAGE.
Proof. intros s. reflexivity. Qed.

Lemma always_requests_get E url : always R (requests_get E url).
Proof.
  intros s. unfold requests_get.
  destruct (http E (trace s) url); apply R_log.
Qed.

Lemma always_raise_for_status status : always R (raise_for_status status).
Proof. unfold raise_for_status. destruct (_ && _); [apply always_raise|apply always_ret]. Qed.

Lemma always_add_uris E uris dir : always R (add_uris E uris dir).
Proof.
  intros s. unfold add_uris.
  destruct (add_uris_error E (trace s) uris dir); apply R_log.
Qed.

Lemma always_submit E dir url : always R (submit E dir url).
Proof.
  intros s. unfold submit. pose proof (always_add_uris E [url] dir s) as H.
  destruct (add_uris E [url] dir s) as [[[]|e] s1]; cbn [snd] in *; [exact H|].
  transitivity s1; [exact H|apply always_print].
Qed.

Lemma always_fetch_books E page : always R (fetch_books E page).
Proof.
  unfold fetch_books. apply always_try_except.
  - apply always_bind; [apply always_requests_get|]. intros [status content].
    apply always_bind; [apply always_raise_for_status|]. intros _. apply always_lift.
  - intros msg. apply always_bind; [apply always_print|]. intros _. apply always_ret.
Qed.

Lemma always_fetch_rss_feed E url : always R (fetch_rss_feed E url).
Proof.
  unfold fetch_rss_feed. apply always_try_except.
  - apply always_bind; [apply always_requests_get|]. intros [status content].
    apply always_bind; [apply always_raise_for_status|]. intros _.
    destruct (fromstring E content); [apply always_ret|apply always_raise].
  - intros msg. apply always_bind; [apply always_print|]. intros _. apply always_ret.
Qed.

Lemma always_display_books books : always R (display_books books).
Proof.
  unfold display_books. apply always_bind; [apply always_print|]. intros _.
  apply always_bind; [apply always_for_each; intros; apply always_print|].
  intros _. apply always_print.
Qed.

Lemma always_get_int info key : always R (get_int info key).
Proof.
  unfold get_int. destruct (info !! key) as [[]|];
    [apply always_ret|apply always_raise..].
Qed.

Lemma always_get_pagination_info soup : always R (get_pagination_info soup).
Proof.
  unfold get_pagination_info. apply always_bind; [apply always_get_PAGE|]. intros page.
  cbn zeta. destruct (Bs4.find is_result_pages soup); [|apply always_ret].
  apply always_bind.
  - unfold read_marker. destruct (_ && _); [|apply always_ret].
    destruct (parse_marker _ _) as [info [e|]]; [|apply always_ret].
    destruct (is_value_or_index_error e); [|apply always_raise].
    apply always_bind; [apply always_print|]. intros _. apply always_ret.
  - intros info. unfold set_neighbours.
    apply always_bind; [apply always_get_int|]. intros c. cbn zeta.
    apply always_bind; [apply always_get_int|]. intros c'.
    apply always_bind; [apply always_get_int|]. intros t. apply always_ret.
Qed.

Lemma always_listing_page E : always R (listing_page E).
Proof.
  unfold listing_page. apply always_bind; [apply always_get_PAGE|]. intros page.
  apply always_bind; [apply always_requests_get|]. intros [status content].
  apply always_bind; [apply always_raise_for_status|]. intros _. cbn zeta.
  apply always_bind; [apply always_get_PAGE|]. intros page'.
  apply always_bind; [apply always_fetch_books|]. intros books.
  destruct books as [|b books].
  - apply always_bind; [apply always_print|]. intros _. apply always_ret.
  - apply always_bind; [apply always_display_books|]. intros _.
    apply always_bind; [apply always_get_pagination_info|]. intros info.
    apply always_bind; [apply always_get_PAGE|]. intros page''. cbn zeta.
    apply always_bind; [apply always_print|]. intros _. apply always_ret.
Qed.

Lemma always_start_aria2c : always R start_aria2c.
Proof.
  unfold start_aria2c. apply always_bind; [apply always_emit|].
  intros _. apply always_emit.
Qed.

End Always.

Lemma quiet_log ev s : quiet s (log ev s).
Proof. repeat split. cbn. now apply prefix_app_r. Qed.

Lemma grown_log ev s : grown s (log ev s).
Proof. apply quiet_grown, quiet_log. Qed.

Lemma always_makedirs path exist_ok : always grown (makedirs path exist_ok).
Proof.
  intros s. unfold makedirs.
  pose proof (mkdir_chain_mono (chain path) (dirs s)) as Hmono.
  destruct (mkdir_chain (chain path) (dirs s)) as [ds [e|]]; cbn [fst] in Hmono.
  - repeat split; cbn; [exact Hmono|now apply prefix_app_r].
  - destruct (_ && _); repeat split; cbn; try exact Hmono; now apply prefix_app_r.
Qed.

Lemma always_download_book E rss_feed : always grown (download_book E rss_feed).
Proof.
  unfold download_book. apply always_bind; [tc_solve| |].
  - destruct (feed_title rss_feed); [apply always_ret|apply always_raise]; tc_solve.
  - intros t. cbn zeta. apply always_bind; [tc_solve|apply always_makedirs|].
    intros _. apply always_bind; [tc_solve| |].
    + apply always_for_each; [tc_solve|]. intros url.
      apply always_submit; [tc_solve|apply grown_log].
    + intros _. apply always_print. apply grown_log.
Qed.

(** X2. [get_pagination_info] never raises, leaves the page number and
    the directories alone, and adds at most one event to the trace: the
    warning about a marker it could not parse. *)
Theorem get_pagination_info_frame soup s :
  (exists info, (get_pagination_info soup s).1 = Returned info) /\
  PAGE (get_pagination_info soup s).2 = PAGE s /\
  dirs (get_pagination_info soup s).2 = dirs s /\
  (trace (get_pagination_info soup s).2 = trace s \/
   exists text,
     trace (get_pagination_info soup s).2 =
       trace s ++ [EPrint ("Warning: Pagination text parsing failed with value '"
                           +:+ text +:+ "'")]).
Proof.
  unfold get_pagination_info. run_m.
  destruct (Bs4.find is_result_pages soup) as [div|]; [|cbn; eauto 10].
  set (text := Bs4.get_text_strip div).
  change (<["total_pages":=PyInt (PAGE s)]> (<["current_page":=PyInt (PAGE s)]> ∅))
    with (initial_info (PAGE s)).
  destruct (read_marker_run text (initial_info (PAGE s)) s _ _ eq_refl eq_refl)
    as (s' & -> & HP & HD & Hs').
  destruct (parsed_info_pages (PAGE s) text) as (c & t & Hc & Ht & _ & _).
  fold (parsed_info (PAGE s) text).
  destruct (set_neighbours_run _ s' c t Hc Ht) as (info' & -> & _).
  cbn [fst snd]. split; [eauto|]. split; [done|]. split; [done|].
  destruct Hs' as [->| ->]; [now left|right; now exists text].
Qed.

(** X3. When the marker text lacks "Page" or "of", has nothing after
    "Page ", or has no integer before " of ", both page numbers fall back
    to the requested page. *)
Theorem pagination_full_fallback soup div s :
  Bs4.find is_result_pages soup = Some div ->
  Py.contains "Page" (Bs4.get_text_strip div)
    && Py.contains "of" (Bs4.get_text_strip div) = false
  \/ Py.split "Page " (Bs4.get_text_strip div) !! 1 = None
  \/ (exists rest,
        Py.split "Page " (Bs4.get_text_strip div) !! 1 = Some rest /\
        Py.int (hd "" (Py.split " of " rest)) = None) ->
  exists info,
    (get_pagination_info soup s).1 = Returned info /\
    info !! "current_page" = Some (PyInt (PAGE s)) /\
    info !! "total_pages" = Some (PyInt (PAGE s)) /\
    info !! "has_next" = Some PyNone.
Proof.
  intros Hfind Hfail.
  destruct (get_pagination_info_shape soup s) as (info & s' & Heq & _ & _ & H).
  rewrite Hfind in H. cbn zeta in H. destruct H as (c & t & Hc & Ht & Hic & Hit & _ & Hn).
  exists info. rewrite Heq. split; [reflexivity|].
  assert (Hinfo0 : parsed_info (PAGE s) (Bs4.get_text_strip div) = initial_info (PAGE s)).
  { unfold parsed_info. destruct Hfail as [->|Hfail]; [reflexivity|].
    destruct (_ && _); [|reflexivity]. unfold parse_marker, index.
    destruct Hfail as [->|(rest & -> & Hint)]; [reflexivity|].
    pose proof (PyFacts.split_nonempty " of " rest) as Hne.
    destruct (Py.split " of " rest) as [|p0 parts]; [done|].
    cbn in Hint |- *. unfold to_int. now rewrite Hint. }
  rewrite Hinfo0 in Hc, Ht.
  assert (c = PAGE s) as -> by (unfold initial_info in Hc; by simplify_map_eq).
  assert (t = PAGE s) as -> by (unfold initial_info in Ht; by simplify_map_eq).
  rewrite Z.ltb_irrefl in Hn. done.
Qed.

Lemma pagination_full_fallback_witness :
  exists info,
    (get_pagination_info (marker_page "Seite 3 von 10") (State 4 ∅ [])).1 = Returned info /\
    info !! "current_page" = Some (PyInt 4) /\
    info !! "total_pages" = Some (PyInt 4) /\
    info !! "has_next" = Some PyNone.
Proof.
  apply (pagination_full_fallback _
           (Bs4.Tag "div" [("class", "result-pages")]
              [Bs4.NavigableString "Seite 3 von 10"]) (State 4 ∅ []));
    [reflexivity|left; reflexivity].
Defined.

(** [int] reads a numeral between white space of any script and in
    the decimal digits of any script, as the interpreter does; the
    separators U+001C..U+001F, white space to [str.strip], are none to
    [int]. So the marker "Page 3 of 10" with no-break spaces around the
    3 is parsed. *)
Lemma int_white_space :
  Py.int ("3" +:+ Utf8.encode_cp 160) = Some 3%Z /\
  Py.int (Utf8.encode_cp 8195 +:+ "42") = Some 42%Z /\
  Py.int (Utf8.encode_cp 1635) = Some 3%Z /\
  Py.int ("3" +:+ Utf8.encode_cp 28) = None /\
  exists info,
    (get_pagination_info
       (marker_page ("Page " +:+ Utf8.encode_cp 160 +:+ "3" +:+ Utf8.encode_cp 160
                     +:+ " of 10"))
       (State 1 ∅ [])).1 = Returned info /\
    info !! "current_page" = Some (PyInt 3) /\
    info !! "total_pages" = Some (PyInt 10).
Proof.
  repeat split; try (vm_compute; reflexivity).
  eexists. repeat split; vm_compute; reflexivity.
Qed.

(** ** Fetching *)

(** What [requests.get] followed by [raise_for_status] ends with, when
    it fails. *)
Definition request_error (o : http_outcome) : option string :=
  match o with
  | Failed msg => Some msg
  | Response status _ =>
      if ((400 <=? status) && (status <? 600))%Z
      then Some ("HTTP status " +:+ str_of_Z status)
      else None
  end.

(** A server that answers with a page whose one catalog entry has a
    title and an image without [src]. *)
Definition srcless_env : env :=
  Env (fun _ _ => Response 200 "")
      (fun _ =>
         Bs4.Tag "[document]" []
           [Bs4.Tag "td" [("class", "layout2-blue")]
              [Bs4.Tag "b" [] [Bs4.NavigableString "Emma"];
               Bs4.Tag "img" [("alt", "cover")] []]])
      (fun _ => None)
      (fun _ _ _ => None)
      false.

(** X4. When the catalog request fails (transport failure or a 4xx/5xx
    status), [fetch_books] prints the error and returns the empty list;
    nothing else happens. *)
Theorem fetch_books_request_failure E page s msg :
  request_error (http E (trace s) (BASE_URL +:+ "/" +:+ str_of_Z page)) = Some msg ->
  fetch_books E page s =
    (Returned [],
     log (EPrint ("Error fetching books: " +:+ msg))
         (log (EGet (BASE_URL +:+ "/" +:+ str_of_Z page)) s)).
Proof.
  unfold request_error, fetch_books, try_except, requests_get, raise_for_status.
  run_m. destruct (http E (trace s) _) as [msg'|status content].
  - now intros [= ->].
  - cbn. destruct (_ && _); [|discriminate]. now intros [= <-].
Qed.

Lemma fetch_books_request_failure_witness :
  fetch_books quiet_env 1 fresh =
    (Returned [],
     log (EPrint ("Error fetching books: " +:+ "unreachable"))
         (log (EGet (BASE_URL +:+ "/" +:+ str_of_Z 1)) fresh)).
Proof.
  apply (fetch_books_request_failure quiet_env 1 fresh "unreachable"). reflexivity.
Defined.

(** The only exception the loop over the entries can raise. *)
Lemma collect_books_exn E entries acc e :
  collect_books E entries acc = Raised e -> e = KeyError "src".
Proof.
  revert acc. induction entries as [|entry entries IH]; intros acc; [discriminate|].
  cbn [collect_books]. destruct (entry_book E entry) as [[b|]|e'] eqn:Hentry;
    [apply IH..|].
  intros [= <-]. unfold entry_book in Hentry.
  destruct (Bs4.find_ctx (Bs4.has_name "b") entry) as [[tt sibs]|]; [|discriminate].
  destruct (Bs4.find (Bs4.has_name "img") entry) as [img|]; [|discriminate].
  destruct (Bs4.get_attr "src" img); [discriminate|]. now injection Hentry as <-.
Qed.

(** When the request succeeds, [fetch_books] is the parse of the body. *)
Lemma fetch_books_response E page s status content :
  http E (trace s) (BASE_URL +:+ "/" +:+ str_of_Z page) = Response status content ->
  ((400 <=? status) && (status <? 600))%Z = false ->
  fetch_books E page s =
    (books_of_soup E (html_parser E content),
     log (EGet (BASE_URL +:+ "/" +:+ str_of_Z page)) s).
Proof.
  intros Hh Hst. unfold fetch_books, try_except, requests_get, raise_for_status.
  run_m. rewrite Hh. cbn. rewrite Hst. cbn.
  destruct (books_of_soup E (html_parser E content)) as [books|e] eqn:Hb; [reflexivity|].
  now rewrite (collect_books_exn _ _ _ _ Hb).
Qed.

Lemma collect_books_raises E entries acc e :
  (exists entry, entry ∈ entries /\ entry_book E entry = Raised e) ->
  (forall entry e', entry ∈ entries -> entry_book E entry = Raised e' -> e' = e) ->
  collect_books E entries acc = Raised e.
Proof.
  revert acc. induction entries as [|entry entries IH]; intros acc (bad & Hin & Hbad) Hall.
  - now apply elem_of_nil in Hin.
  - cbn [collect_books]. destruct (entry_book E entry) as [[b|]|e'] eqn:Hentry.
    + apply IH; [|intros ? ? ?; apply Hall; now right].
      apply elem_of_cons in Hin as [->|Hin]; [congruence|eauto].
    + apply IH; [|intros ? ? ?; apply Hall; now right].
      apply elem_of_cons in Hin as [->|Hin]; [congruence|eauto].
    + f_equal. apply (Hall entry); [now left|exact Hentry].
Qed.

(** X5. A catalog entry with a bold title whose first image has no
    [src] attribute makes [fetch_books] raise [KeyError]: the handler for
    request errors does not catch it, and no listing is returned. *)
Theorem fetch_books_srcless_image E page s status content entry img :
  http E (trace s) (BASE_URL +:+ "/" +:+ str_of_Z page) = Response status content ->
  ((400 <=? status) && (status <? 600))%Z = false ->
  entry ∈ Bs4.find_all is_book_entry (html_parser E content) ->
  has_title entry = true ->
  Bs4.find (Bs4.has_name "img") entry = Some img ->
  Bs4.get_attr "src" img = None ->
  fetch_books E page s =
    (Raised (KeyError "src"), log (EGet (BASE_URL +:+ "/" +:+ str_of_Z page)) s).
Proof.
  intros Hh Hst Hin Ht Himg Hsrc.
  rewrite (fetch_books_response E page s status content Hh Hst). f_equal.
  unfold books_of_soup. apply collect_books_raises.
  - exists entry. split; [exact Hin|]. unfold entry_book. unfold has_title in Ht.
    destruct (Bs4.find_ctx (Bs4.has_name "b") entry) as [[tt sibs]|]; [|discriminate].
    now rewrite Himg, Hsrc.
  - intros entry' e' _. unfold entry_book.
    destruct (Bs4.find_ctx (Bs4.has_name "b") entry') as [[tt sibs]|]; [|discriminate].
    destruct (Bs4.find (Bs4.has_name "img") entry') as [img'|]; [|discriminate].
    destruct (Bs4.get_attr "src" img'); [discriminate|]. now intros [= <-].
Qed.

Lemma fetch_books_srcless_image_witness :
  fetch_books srcless_env 1 fresh =
    (Raised (KeyError "src"), log (EGet (BASE_URL +:+ "/" +:+ str_of_Z 1)) fresh).
Proof.
  apply (fetch_books_srcless_image srcless_env 1 fresh 200 ""
           (Bs4.Tag "td" [("class", "layout2-blue")]
              [Bs4.Tag "b" [] [Bs4.NavigableString "Emma"];
               Bs4.Tag "img" [("alt", "cover")] []])
           (Bs4.Tag "img" [("alt", "cover")] []));
    try reflexivity.
  vm_compute. apply list_elem_of_here.
Defined.

(** X6. When the feed request fails (transport failure or a 4xx/5xx
    status), [fetch_rss_feed] prints the error and returns [None]. *)
Theorem fetch_rss_feed_request_failure E url s msg :
  request_error (http E (trace s) (url +:+ "/feed")) = Some msg ->
  fetch_rss_feed E url s =
    (Returned None,
     log (EPrint ("Error fetching RSS feed: " +:+ msg)) (log (EGet (url +:+ "/feed")) s)).
Proof.
  unfold request_error, fetch_rss_feed, try_except, requests_get, raise_for_status.
  run_m. destruct (http E (trace s) _) as [msg'|status content].
  - now intros [= ->].
  - cbn. destruct (_ && _); [|discriminate]. now intros [= <-].
Qed.

Lemma fetch_rss_feed_request_failure_witness :
  fetch_rss_feed quiet_env "http://www.loyalbooks.com/book/emma" fresh =
    (Returned None,
     log (EPrint ("Error fetching RSS feed: " +:+ "unreachable"))
         (log (EGet ("http://www.loyalbooks.com/book/emma" +:+ "/feed")) fresh)).
Proof.
  apply (fetch_rss_feed_request_failure quiet_env _ fresh "unreachable"). reflexivity.
Defined.

(** ** The prompt: one choice *)

Lemma always_handle_choice_digits E books info choice :
  Py.isdigit choice = true -> always grown (handle_choice E books info choice).
Proof.
  intros Hd. unfold handle_choice. rewrite Hd.
  apply always_bind; [tc_solve|apply always_lift; tc_solve|]. intros n.
  destruct (_ && _).
  2:{ apply always_bind; [tc_solve|apply always_print, grown_log|].
      intros _. apply always_ret; tc_solve. }
  destruct (books !! Z.to_nat (n - 1)) as [b|]; [|apply always_raise; tc_solve].
  destruct (link b) as [url|]; [|apply always_ret; tc_solve].
  destruct (Bs4.nonempty url); [|apply always_ret; tc_solve].
  apply always_bind; [tc_solve|apply always_fetch_rss_feed; [tc_solve|apply grown_log]|].
  intros [feed|].
  - destruct (ET.truthy feed).
    + apply always_bind; [tc_solve|apply always_download_book|].
      intros _. apply always_ret; tc_solve.
    + apply always_bind; [tc_solve|apply always_print, grown_log|].
      intros _. apply always_ret; tc_solve.
  - apply always_bind; [tc_solve|apply always_print, grown_log|].
    intros _. apply always_ret; tc_solve.
Qed.

Lemma handle_choice_within E books info choice s :
  within 1 s (handle_choice E books info choice s).2 /\
  (choice <> "n" -> choice <> "p" ->
   PAGE (handle_choice E books info choice s).2 = PAGE s).
Proof.
  destruct (Py.isdigit choice) eqn:Hd.
  { pose proof (always_handle_choice_digits E books info choice Hd s) as Hg.
    split; [|intros _ _; apply Hg].
    apply (within_le 0); [lia|]. now apply grown_within. }
  unfold handle_choice. rewrite Hd.
  destruct (String.eqb_spec choice "n") as [->|Hn].
  { split; [|done]. destruct (py_truthy _); run_m; cbn.
    - unfold within; cbn. repeat split; [lia|done|done].
    - apply (within_le 0); [lia|]. apply grown_within, grown_log. }
  destruct (String.eqb_spec choice "p") as [->|Hp].
  { split; [|done]. destruct (py_truthy _); run_m; cbn.
    - unfold within; cbn. repeat split; [lia|done|done].
    - apply (within_le 0); [lia|]. apply grown_within, grown_log. }
  run_m. cbn. split; [|done].
  apply (within_le 0); [lia|]. apply grown_within, grown_log.
Qed.

(** X7. Whatever the user types, one pass through the prompt moves the
    page number by at most one, removes no directory and only adds to
    the trace; unless the choice is "n" or "p" the page number stays. *)
Theorem handle_choice_moves_one_page E books info choice s :
  within 1 s (handle_choice E books info choice s).2 /\
  (choice <> "n" -> choice <> "p" ->
   PAGE (handle_choice E books info choice s).2 = PAGE s).
Proof. apply handle_choice_within. Qed.

(** X8. A number outside 1..len(books), written with at most
    [max_str_digits] digits, is answered with the range message and a new
    prompt; nothing else happens. *)
Theorem choice_out_of_range E books info (n : nat) s :
  n = 0 \/ length books < n ->
  (String.length (Py.str_of_N (N.of_nat n)) <= Py.max_str_digits)%nat ->
  handle_choice E books info (Py.str_of_N (N.of_nat n)) s =
    (Returned Reprompt,
     log (EPrint ("Invalid choice. Please enter a number between 1 and "
                  +:+ Py.str_of_N (N.of_nat (length books)) +:+ ".")) s).
Proof.
  intros Hn _. unfold handle_choice.
  rewrite PyFacts.str_of_N_isdigit, to_int_str_of_N. run_m.
  replace ((1 <=? Z.of_N (N.of_nat n)) && (Z.of_N (N.of_nat n) <=? Z.of_nat (length books)))%Z
    with false; [reflexivity|].
  symmetry. apply andb_false_iff.
  destruct Hn as [->|Hn]; [left|right]; apply Z.leb_gt; lia.
Qed.

Lemma choice_out_of_range_witness :
  handle_choice quiet_env [Book "Emma" "Jane Austen" None None] ∅ "2" fresh =
    (Returned Reprompt,
     log (EPrint "Invalid choice. Please enter a number between 1 and 1.") fresh).
Proof.
  apply (choice_out_of_range quiet_env [Book "Emma" "Jane Austen" None None] ∅ 2 fresh).
  - right. cbn. lia.
  - vm_compute. lia.
Defined.

(** What "n" and "p" do, given the two neighbour entries. *)
Lemma handle_choice_next E books info s :
  handle_choice E books info "n" s =
    if py_truthy (dict_get info "has_next")
    then (Returned Break, set_PAGE (PAGE s + 1) s)
    else (Returned Reprompt, log (EPrint "No next page available.") s).
Proof. unfold handle_choice. cbn. now destruct (py_truthy _). Qed.

Lemma handle_choice_previous E books info s :
  handle_choice E books info "p" s =
    if py_truthy (dict_get info "has_previous")
    then (Returned Break, set_PAGE (PAGE s - 1) s)
    else (Returned Reprompt, log (EPrint "No previous page available.") s).
Proof. unfold handle_choice. cbn. now destruct (py_truthy _). Qed.

(** X9. Navigation after a marker "Page X of Y" (numerals of at most
    [max_str_digits] digits, followed by ['>'] characters and blanks
    only): "n" is accepted iff [X < Y] and "p" iff [1 < X], and an
    accepted move changes the global page by one, whatever [X] is; a
    refused move prints that no such page is available. *)
Theorem navigation_follows_marker E soup div s (X Y : N) t info books s1 :
  Bs4.find is_result_pages soup = Some div ->
  Bs4.get_text_strip div = marker_text X Y t ->
  PyFacts.all_chars stray t = true ->
  (String.length (Py.str_of_N X) <= Py.max_str_digits)%nat ->
  (String.length (Py.str_of_N Y) <= Py.max_str_digits)%nat ->
  (get_pagination_info soup s).1 = Returned info ->
  handle_choice E books info "n" s1 =
    (if (X <? Y)%N then (Returned Break, set_PAGE (PAGE s1 + 1) s1)
     else (Returned Reprompt, log (EPrint "No next page available.") s1)) /\
  handle_choice E books info "p" s1 =
    (if (1 <? X)%N then (Returned Break, set_PAGE (PAGE s1 - 1) s1)
     else (Returned Reprompt, log (EPrint "No previous page available.") s1)).
Proof.
  intros Hfind Htext Ht _ _ Hinfo.
  destruct (get_pagination_info_shape soup s) as (info' & s' & Heq & _ & _ & H).
  rewrite Heq in Hinfo. injection Hinfo as ->.
  rewrite Hfind in H. cbn zeta in H. destruct H as (c & t' & Hc & Ht' & _ & _ & Hp & Hn).
  unfold parsed_info in Hc, Ht'.
  rewrite Htext, marker_text_gate, (parse_marker_text X Y t _ Ht) in Hc, Ht'.
  cbn [fst] in Hc, Ht'.
  assert (c = Z.of_N X) as -> by (by simplify_map_eq).
  assert (t' = Z.of_N Y) as -> by (by simplify_map_eq).
  rewrite handle_choice_next, handle_choice_previous. unfold dict_get.
  rewrite Hp, Hn. cbn [default]. split.
  - destruct (N.ltb_spec X Y), (Z.ltb_spec (Z.of_N X) (Z.of_N Y)); try lia; [|reflexivity].
    cbn [py_truthy id]. now rewrite (proj2 (Z.eqb_neq (Z.of_N X + 1) 0)) by lia.
  - destruct (N.ltb_spec 1 X), (Z.ltb_spec 1 (Z.of_N X)); try lia; [|reflexivity].
    cbn [py_truthy id]. now rewrite (proj2 (Z.eqb_neq (Z.of_N X - 1) 0)) by lia.
Qed.

Lemma navigation_follows_marker_witness :
  (exists info,
     (get_pagination_info (marker_page "Page 5 of 10 >") fresh).1 = Returned info /\
     handle_choice quiet_env [] info "n" fresh
       = (Returned Break, set_PAGE (PAGE fresh + 1) fresh) /\
     handle_choice quiet_env [] info "p" fresh
       = (Returned Break, set_PAGE (PAGE fresh - 1) fresh)) /\
  (exists info,
     (get_pagination_info (marker_page "Page 1 of 1") fresh).1 = Returned info /\
     handle_choice quiet_env [] info "n" fresh
       = (Returned Reprompt, log (EPrint "No next page available.") fresh) /\
     handle_choice quiet_env [] info "p" fresh
       = (Returned Reprompt, log (EPrint "No previous page available.") fresh)).
Proof.
  split; eexists; (split; [reflexivity|]).
  - apply (navigation_follows_marker quiet_env (marker_page "Page 5 of 10 >")
             (Bs4.Tag "div" [("class", "result-pages")]
                [Bs4.NavigableString "Page 5 of 10 >"]) fresh 5 10 " >" _ [] fresh);
      try reflexivity; vm_compute; lia.
  - apply (navigation_follows_marker quiet_env (marker_page "Page 1 of 1")
             (Bs4.Tag "div" [("class", "result-pages")]
                [Bs4.NavigableString "Page 1 of 1"]) fresh 1 1 "" _ [] fresh);
      try reflexivity; vm_compute; lia.
Defined.

(** X10. On a page without a pagination marker node neither "n" nor "p"
    is accepted, whatever the page number. *)
Theorem no_marker_no_navigation E soup s info books s1 :
  Bs4.find is_result_pages soup = None ->
  (get_pagination_info soup s).1 = Returned info ->
  handle_choice E books info "n" s1 =
    (Returned Reprompt, log (EPrint "No next page available.") s1) /\
  handle_choice E books info "p" s1 =
    (Returned Reprompt, log (EPrint "No previous page available.") s1).
Proof.
  intros Hfind Hinfo.
  destruct (get_pagination_info_shape soup s) as (info' & s' & Heq & _ & _ & H).
  rewrite Heq in Hinfo. injection Hinfo as ->.
  rewrite Hfind in H. destruct H as (_ & _ & _ & Hp & Hn).
  rewrite handle_choice_next, handle_choice_previous. unfold dict_get.
  now rewrite Hp, Hn.
Qed.

Lemma no_marker_no_navigation_witness :
  handle_choice quiet_env []
    (<["total_pages" := PyInt 2]> (<["current_page" := PyInt 2]> ∅)) "n" fresh =
    (Returned Reprompt, log (EPrint "No next page available.") fresh) /\
  handle_choice quiet_env []
    (<["total_pages" := PyInt 2]> (<["current_page" := PyInt 2]> ∅)) "p" fresh =
    (Returned Reprompt, log (EPrint "No previous page available.") fresh).
Proof.
  apply (no_marker_no_navigation quiet_env (Bs4.Tag "[document]" [] [])
           (State 2 ∅ []) _ [] fresh); reflexivity.
Defined.

(** ** The listing and the session *)

Lemma bind_returned {A B} (m : M A) (k : A -> M B) s a s1 :
  m s = (Returned a, s1) -> (m ≫= k) s = k a s1.
Proof. intros H. unfold mbind, M_bind, bind. now rewrite H. Qed.

Lemma bind_raised {A B} (m : M A) (k : A -> M B) s e s1 :
  m s = (Raised e, s1) -> (m ≫= k) s = (Raised e, s1).
Proof. intros H. unfold mbind, M_bind, bind. now rewrite H. Qed.

Lemma always_bind_from (R : relation state) `{!PreOrder R} {A B}
    (m : M A) (k : A -> M B) s :
  (forall a, always R (k a)) -> R (m s).2 ((m ≫= k) s).2.
Proof.
  intros Hk. unfold mbind, M_bind, bind.
  destruct (m s) as [[a|e] s1]; cbn [snd]; [apply Hk|reflexivity].
Qed.

Lemma within_bind j k {A B} (m : M A) (f : A -> M B) s :
  within j s (m s).2 -> (forall a s1, within k s1 (f a s1).2) ->
  within (j + k) s ((m ≫= f) s).2.
Proof.
  intros Hm Hf. unfold mbind, M_bind, bind.
  destruct (m s) as [[a|e] s1]; cbn [snd] in *.
  - eapply within_trans; [exact Hm|apply Hf].
  - apply (within_le j); [lia|exact Hm].
Qed.

(** The URL of the catalog page [page]. *)
Definition page_url (page : Z) : string := BASE_URL +:+ "/" +:+ str_of_Z page.

Lemma fetch_books_first_event E page s :
  exists rest, trace (fetch_books E page s).2 = trace s ++ EGet (page_url page) :: rest.
Proof.
  unfold fetch_books, try_except, requests_get, raise_for_status, page_url. run_m.
  destruct (http E (trace s) _) as [msg|status content]; cbn.
  - eexists. rewrite <- app_assoc. reflexivity.
  - destruct (_ && _); cbn.
    + eexists. rewrite <- app_assoc. reflexivity.
    + destruct (books_of_soup E (html_parser E content)) as [books|e]; cbn.
      * now exists [].
      * destruct (request_exception e); cbn.
        -- eexists. rewrite <- app_assoc. reflexivity.
        -- now exists [].
Qed.

(** The part of [listing_page] that follows the first request. *)
Definition listing_rest (E : env) (content : string)
  : M (option (list book * gmap string pyval)) :=
  let soup := html_parser E content in
  page ← get_PAGE ;
  books ← fetch_books E page ;
  match books with
  | [] =>
      print "No books found or there was an error fetching the book list." ;;
      mret None
  | _ =>
      display_books books ;;
      pagination_info ← get_pagination_info soup ;
      page ← get_PAGE ;
      let current_page := default (PyInt page) (pagination_info !! "current_page") in
      let total_pages :=
        match pagination_info !! "total_pages" with
        | Some v => pystr v
        | None => "unknown"
        end in
      print ("Page " +:+ pystr current_page +:+ " of " +:+ total_pages) ;;
      mret (Some (books, pagination_info))
  end.

Lemma listing_page_request_error E s msg :
  request_error (http E (trace s) (page_url (PAGE s))) = Some msg ->
  listing_page E s = (Raised (RequestException msg), log (EGet (page_url (PAGE s))) s).
Proof.
  unfold request_error, listing_page, requests_get, raise_for_status, page_url.
  run_m. destruct (http E (trace s) _) as [msg'|status content].
  - now intros [= ->].
  - cbn. destruct (_ && _); [|discriminate]. now intros [= <-].
Qed.

Lemma listing_page_response E s status content :
  http E (trace s) (page_url (PAGE s)) = Response status content ->
  ((400 <=? status) && (status <? 600))%Z = false ->
  listing_page E s = listing_rest E content (log (EGet (page_url (PAGE s))) s).
Proof.
  intros Hh Hst. unfold listing_page, listing_rest, requests_get, raise_for_status, page_url in *.
  run_m. rewrite Hh. cbn. rewrite Hst. reflexivity.
Qed.

Lemma listing_page_twice E s status content :
  http E (trace s) (page_url (PAGE s)) = Response status content ->
  ((400 <=? status) && (status <? 600))%Z = false ->
  exists rest,
    trace (listing_page E s).2 =
      trace s ++ EGet (page_url (PAGE s)) :: EGet (page_url (PAGE s)) :: rest.
Proof.
  intros Hh Hst. rewrite (listing_page_response E s status content Hh Hst).
  set (s1 := log (EGet (page_url (PAGE s))) s).
  unfold listing_rest. cbn zeta.
  rewrite (bind_returned get_PAGE _ s1 (PAGE s) s1 eq_refl).
  destruct (fetch_books_first_event E (PAGE s) s1) as (rest0 & Hfb).
  assert (Hq : quiet (fetch_books E (PAGE s) s1).2
                 ((fetch_books E (PAGE s) ≫= fun books =>
                     match books with
                     | [] =>
                         print "No books found or there was an error fetching the book list." ;;
                         mret None
                     | _ =>
                         display_books books ;;
                         pagination_info ← get_pagination_info (html_parser E content) ;
                         page ← get_PAGE ;
                         print ("Page "
                                +:+ pystr (default (PyInt page) (pagination_info !! "current_page"))
                                +:+ " of "
                                +:+ match pagination_info !! "total_pages" with
                                    | Some v => pystr v
                                    | None => "unknown"
                                    end) ;;
                         mret (Some (books, pagination_info))
                     end) s1).2).
  { apply always_bind_from; [tc_solve|]. intros books. destruct books as [|b books].
    - apply always_bind; [tc_solve|apply always_print, quiet_log|].
      intros _. apply always_ret; tc_solve.
    - apply always_bind; [tc_solve|apply always_display_books; [tc_solve|apply quiet_log]|].
      intros _. apply always_bind;
        [tc_solve|apply always_get_pagination_info; [tc_solve|apply quiet_log]|].
      intros info. apply always_bind; [tc_solve|apply always_get_PAGE; tc_solve|].
      intros page. apply always_bind; [tc_solve|apply always_print, quiet_log|].
      intros _. apply always_ret; tc_solve. }
  destruct Hq as (_ & _ & (more & Hmore)).
  exists (rest0 ++ more). rewrite Hmore, Hfb. unfold s1. cbn.
  now rewrite <- !app_assoc.
Qed.

(** X11. Every listing whose first request succeeds requests the same
    catalog page twice: once in [main] for the pagination marker, once in
    [fetch_books]. *)
Theorem listing_requests_page_twice E s status content :
  http E (trace s) (page_url (PAGE s)) = Response status content ->
  ((400 <=? status) && (status <? 600))%Z = false ->
  exists rest,
    trace (listing_page E s).2 =
      trace s ++ EGet (page_url (PAGE s)) :: EGet (page_url (PAGE s)) :: rest.
Proof. apply listing_page_twice. Qed.

Lemma listing_requests_page_twice_witness :
  exists rest,
    trace (listing_page truncated_env fresh).2 =
      trace fresh ++ EGet (page_url (PAGE fresh)) :: EGet (page_url (PAGE fresh)) :: rest.
Proof.
  apply (listing_requests_page_twice truncated_env fresh 200 "<rss>"); reflexivity.
Defined.

(** The state in which [main] makes its first request. *)
Definition started (s : state) : state := (start_aria2c s).2.

Lemma main_unfold E inputs s :
  main E inputs s =
    (r ← listing_page E ;
     match r with
     | Some (books, pagination_info) => prompt_loop E inputs books pagination_info
     | None => mret tt
     end) (started s).
Proof. reflexivity. Qed.

(** X12. The first catalog request of [main] is not guarded: when it
    fails (transport failure or a 4xx/5xx status), [main] raises the
    request exception right after starting the daemon, without printing
    anything and without prompting. *)
Theorem main_first_request_unguarded E inputs s msg :
  request_error (http E (trace (started s)) (page_url (PAGE s))) = Some msg ->
  main E inputs s =
    (Raised (RequestException msg), log (EGet (page_url (PAGE s))) (started s)).
Proof.
  intros H. rewrite main_unfold.
  apply bind_raised. now apply (listing_page_request_error E (started s)).
Qed.

Lemma main_first_request_unguarded_witness :
  main quiet_env ["1"] fresh =
    (Raised (RequestException "unreachable"),
     log (EGet (page_url (PAGE fresh))) (started fresh)).
Proof.
  apply (main_first_request_unguarded quiet_env ["1"] fresh "unreachable"). reflexivity.
Defined.

(** X13. When the first request succeeds but [fetch_books] comes back
    with the empty list, [main] prints the "No books found" message and
    returns: the lines the user would type are never asked for. *)
Theorem main_no_books E inputs s status content :
  http E (trace (started s)) (page_url (PAGE s)) = Response status content ->
  ((400 <=? status) && (status <? 600))%Z = false ->
  (fetch_books E (PAGE s) (log (EGet (page_url (PAGE s))) (started s))).1 = Returned [] ->
  main E inputs s =
    (Returned tt,
     log (EPrint "No books found or there was an error fetching the book list.")
         (fetch_books E (PAGE s) (log (EGet (page_url (PAGE s))) (started s))).2).
Proof.
  intros Hh Hst Hfb. rewrite main_unfold.
  rewrite (bind_returned (listing_page E) _ (started s) None
             (log (EPrint "No books found or there was an error fetching the book list.")
                  (fetch_books E (PAGE s) (log (EGet (page_url (PAGE s))) (started s))).2));
    [reflexivity|].
  rewrite (listing_page_response E (started s) status content Hh Hst).
  unfold listing_rest. cbn zeta.
  set (s1 := log (EGet (page_url (PAGE s))) (started s)) in *.
  rewrite (bind_returned get_PAGE _ s1 (PAGE s) s1 eq_refl).
  destruct (fetch_books E (PAGE s) s1) as [o s2] eqn:Heq.
  cbn [fst snd] in *. subst o.
  rewrite (bind_returned _ _ _ _ _ Heq). reflexivity.
Qed.

Lemma main_no_books_witness :
  main truncated_env ["1"; "n"] fresh =
    (Returned tt,
     log (EPrint "No books found or there was an error fetching the book list.")
         (fetch_books truncated_env (PAGE fresh)
            (log (EGet (page_url (PAGE fresh))) (started fresh))).2).
Proof.
  apply (main_no_books truncated_env ["1"; "n"] fresh 200 "<rss>"); reflexivity.
Defined.

Lemma display_lines_lookup idx books i :
  display_lines idx books !! i =
    (fun b => Py.str_of_N (idx + N.of_nat i) +:+ ". " +:+ title b +:+ " by " +:+ author b)
      <$> books !! i.
Proof.
  revert idx i. induction books as [|b books IH]; intros idx i; [now destruct i|].
  destruct i as [|i]; cbn [display_lines].
  - cbn. now rewrite N.add_0_r.
  - cbn [lookup list_lookup]. change (display_lines (N.succ idx) books !! i
      = (fun b => Py.str_of_N (idx + N.of_nat (S i)) +:+ ". " +:+ title b +:+ " by " +:+ author b)
          <$> books !! i).
    rewrite IH. now replace (N.succ idx + N.of_nat i)%N with (idx + N.of_nat (S i))%N by lia.
Qed.

Lemma for_each_print lines s :
  for_each lines print s = (Returned tt, State (PAGE s) (dirs s) (trace s ++ (EPrint <$> lines))).
Proof.
  revert s. induction lines as [|l lines IH]; intros s.
  - cbn. rewrite app_nil_r. now destruct s.
  - cbn [for_each]. rewrite (bind_returned (print l) _ s tt (log (EPrint l) s) eq_refl).
    rewrite IH. cbn. now rewrite <- app_assoc.
Qed.

Lemma display_books_run books s :
  display_books books s =
    (Returned tt,
     State (PAGE s) (dirs s)
       (trace s ++ EPrint "Available books:" :: (EPrint <$> display_lines 1 books)
                ++ [EPrint ""])).
Proof.
  unfold display_books.
  rewrite (bind_returned (print _) _ s tt (log (EPrint "Available books:") s) eq_refl).
  rewrite (bind_returned _ _ _ _ _ (for_each_print _ _)).
  unfold print, emit, log. cbn. do 2 f_equal. now rewrite <- !app_assoc.
Qed.

(** X14. The number printed in front of a book is the number that
    selects it: [display_books] prints the heading, one line
    "k. title by author" per book with k counting from 1, and an empty
    line; and typing k for a book with a link requests that book's feed. *)
Theorem display_matches_selection E books info i b url s :
  books !! i = Some b ->
  link b = Some url ->
  Bs4.nonempty url = true ->
  trace (display_books books s).2 =
    trace s ++ EPrint "Available books:" :: (EPrint <$> display_lines 1 books)
            ++ [EPrint ""] /\
  display_lines 1 books !! i =
    Some (Py.str_of_N (N.of_nat (S i)) +:+ ". " +:+ title b +:+ " by " +:+ author b) /\
  exists rest,
    trace (handle_choice E books info (Py.str_of_N (N.of_nat (S i))) s).2 =
      trace s ++ EGet (url +:+ "/feed") :: rest.
Proof.
  intros Hb Hl Hne. split; [now rewrite display_books_run|]. split.
  - rewrite display_lines_lookup, Hb.
    now replace (1 + N.of_nat i)%N with (N.of_nat (S i)) by lia.
  - rewrite (handle_choice_selects E _ _ _ _ _ Hb), Hl, Hne.
    assert (Hfirst : exists rest0,
              trace (fetch_rss_feed E url s).2 = trace s ++ EGet (url +:+ "/feed") :: rest0).
    { unfold fetch_rss_feed, try_except, requests_get, raise_for_status. run_m.
      destruct (http E (trace s) _) as [msg|status content]; cbn.
      - eexists. rewrite <- app_assoc. reflexivity.
      - destruct (_ && _); cbn.
        + eexists. rewrite <- app_assoc. reflexivity.
        + destruct (fromstring E content); now exists []. }
    destruct Hfirst as (rest0 & Hfirst).
    assert (Hg : grown (fetch_rss_feed E url s).2
                   ((fetch_rss_feed E url ≫= fun rss_feed =>
                       match rss_feed with
                       | Some feed =>
                           if ET.truthy feed then download_book E feed ;; mret Break
                           else print "Failed to fetch the RSS feed. Please try again." ;;
                                mret Break
                       | None =>
                           print "Failed to fetch the RSS feed. Please try again." ;;
                           mret Break
                       end) s).2).
    { apply always_bind_from; [tc_solve|]. intros [feed|].
      - destruct (ET.truthy feed).
        + apply always_bind; [tc_solve|apply always_download_book|].
          intros _. apply always_ret; tc_solve.
        + apply always_bind; [tc_solve|apply always_print, grown_log|].
          intros _. apply always_ret; tc_solve.
      - apply always_bind; [tc_solve|apply always_print, grown_log|].
        intros _. apply always_ret; tc_solve. }
    destruct Hg as (_ & _ & (more & Hmore)).
    exists (rest0 ++ more). rewrite Hmore, Hfirst. now rewrite <- !app_assoc.
Qed.

Lemma display_matches_selection_witness :
  trace (display_books [Book "Emma" "Jane Austen" (Some "http://x/emma") None] fresh).2 =
    trace fresh ++ EPrint "Available books:"
      :: (EPrint <$> display_lines 1 [Book "Emma" "Jane Austen" (Some "http://x/emma") None])
      ++ [EPrint ""] /\
  display_lines 1 [Book "Emma" "Jane Austen" (Some "http://x/emma") None] !! 0 =
    Some (Py.str_of_N (N.of_nat 1) +:+ ". "
          +:+ title (Book "Emma" "Jane Austen" (Some "http://x/emma") None) +:+ " by "
          +:+ author (Book "Emma" "Jane Austen" (Some "http://x/emma") None)) /\
  exists rest,
    trace (handle_choice quiet_env [Book "Emma" "Jane Austen" (Some "http://x/emma") None] ∅
             (Py.str_of_N (N.of_nat 1)) fresh).2 =
      trace fresh ++ EGet ("http://x/emma" +:+ "/feed") :: rest.
Proof.
  apply (display_matches_selection quiet_env
           [Book "Emma" "Jane Austen" (Some "http://x/emma") None] ∅ 0
           (Book "Emma" "Jane Austen" (Some "http://x/emma") None) "http://x/emma" fresh);
    reflexivity.
Defined.

Lemma quiet_within s s' : quiet s s' -> within 0 s s'.
Proof. intros H. now apply grown_within, quiet_grown. Qed.

Lemma listing_page_within E s : within 0 s (listing_page E s).2.
Proof. apply quiet_within, always_listing_page; [tc_solve|apply quiet_log]. Qed.

Lemma prompt_loop_within E inputs books info s :
  within (length inputs) s (prompt_loop E inputs books info s).2.
Proof.
  revert books info s. induction inputs as [|line rest IH]; intros books info s.
  - cbn [prompt_loop length].
    apply (within_bind 0 0 (emit (EInput PROMPT))).
    + apply quiet_within, quiet_log.
    + intros _ s1. apply quiet_within. reflexivity.
  - cbn [prompt_loop length].
    apply (within_bind 0 (S (length rest)) (emit (EInput PROMPT))).
    { apply quiet_within, quiet_log. }
    intros _ s1.
    apply (within_bind 1 (length rest) (handle_choice E books info _)).
    { apply handle_choice_within. }
    intros [] s2; [apply IH|].
    apply (within_bind 0 (length rest) (listing_page E)).
    { apply listing_page_within. }
    intros [[books' info']|] s3; [apply IH|].
    apply (within_le 0); [lia|]. apply quiet_within. reflexivity.
Qed.

Lemma main_within E inputs s : within (length inputs) s (main E inputs s).2.
Proof.
  unfold main.
  apply (within_bind 0 (length inputs) start_aria2c).
  { apply quiet_within, always_start_aria2c; [tc_solve|apply quiet_log]. }
  intros _ s1. apply (within_bind 0 (length inputs) (listing_page E)).
  { apply listing_page_within. }
  intros [[books info]|] s2; [apply prompt_loop_within|].
  apply (within_le 0); [lia|]. apply quiet_within. reflexivity.
Qed.

(** X15. However the session goes and however it ends, after [k] typed
    lines the global page number is at most [k] away from where it
    started, no directory has been removed, and the trace has only grown. *)
Theorem main_page_drift E inputs s :
  within (length inputs) s (main E inputs s).2.
Proof. apply main_within. Qed.

(** X16. Run as a script, the program first makes sure the "audiobooks"
    directory exists, and it still exists when the session ends,
    whether [main] returns or raises. *)
Theorem script_keeps_audiobooks_dir E inputs s :
  AUDIOBOOKS_DIR ∈ dirs (script E inputs s).2 /\
  exists rest, trace (script E inputs s).2 = trace s ++ EMakedirs AUDIOBOOKS_DIR :: rest.
Proof.
  unfold script.
  destruct (makedirs_creates AUDIOBOOKS_DIR s eq_refl) as (Hret & _ & Hin & _).
  pose proof (makedirs_trace AUDIOBOOKS_DIR true s) as [_ Ht].
  destruct (makedirs AUDIOBOOKS_DIR true s) as [o s1] eqn:Hmk.
  cbn [fst snd] in *. subst o.
  rewrite (bind_returned _ _ _ _ _ Hmk).
  destruct (main_within E inputs s1) as (_ & Hd & (more & Hmore)).
  split; [set_solver|].
  exists more. rewrite Hmore, Ht, <- app_assoc. reflexivity.
Qed.

(** ** Download: the edges *)


(** A feed without a title element. *)
Definition untitled_feed : ET.element :=
  ET.Element "rss" [] None
    [ET.Element "channel" [] None
       [ET.Element "item" [] None
          [ET.Element "enclosure" [("url", "http://example.org/a.mp3")] None []]]].

(** A feed whose first title element is empty. *)
Definition blank_title_feed : ET.element :=
  ET.Element "rss" [] None
    [ET.Element "channel" [] None
       [ET.Element "title" [] None []; chapter "http://example.org/a.mp3"]].

(** A server whose feeds parse to a root element without children. *)
Definition hollow_env : env :=
  Env (fun _ _ => Response 200 "<rss/>")
      (fun _ => Bs4.Tag "[document]" [] [])
      (fun _ => Some (ET.Element "rss" [] None []))
      (fun _ _ _ => None)
      false.




(** X18. A feed in which the first title element has no text makes
    [download_book] raise [AttributeError] before it creates a directory
    or submits anything. *)
Theorem blank_title_raises E rss_feed s title_element :
  ET.find_deep "title" rss_feed = Some title_element ->
  ET.text title_element = None ->
  download_book E rss_feed s = (Raised AttributeError, s).
Proof.
  intros Hfind Htext. apply download_book_no_title_text.
  unfold feed_title. now rewrite Hfind, Htext.
Qed.

Lemma blank_title_raises_witness :
  download_book quiet_env blank_title_feed fresh = (Raised AttributeError, fresh).
Proof.
  apply (blank_title_raises quiet_env blank_title_feed fresh
           (ET.Element "title" [] None [])); reflexivity.
Defined.

(** X19. A feed without any title element is downloaded into
    "audiobooks/unknown_title". *)
Theorem untitled_feed_directory E rss_feed s :
  ET.find_deep "title" rss_feed = None ->
  (download_book E rss_feed s).1 = Returned tt /\
  exists rest,
    trace (download_book E rss_feed s).2 =
      trace s ++ EMakedirs "audiobooks/unknown_title" :: rest /\
    submissions rest =
      (fun url => ([url], "audiobooks/unknown_title")) <$> mp3_urls rss_feed.
Proof.
  intros Hfind.
  assert (Ht : feed_title rss_feed = Some "unknown_title")
    by (unfold feed_title; now rewrite Hfind).
  destruct (download_book_run E rss_feed s _ Ht eq_refl)
    as (s' & new & -> & _ & _ & HT & HS & _).
  change (book_dir "unknown_title") with "audiobooks/unknown_title" in *.
  split; [reflexivity|]. eexists. split; [exact HT|].
  rewrite submissions_app, HS. cbn. now rewrite app_nil_r.
Qed.

Lemma untitled_feed_directory_witness :
  (download_book quiet_env untitled_feed fresh).1 = Returned tt /\
  exists rest,
    trace (download_book quiet_env untitled_feed fresh).2 =
      trace fresh ++ EMakedirs "audiobooks/unknown_title" :: rest /\
    submissions rest =
      (fun url => ([url], "audiobooks/unknown_title")) <$> mp3_urls untitled_feed.
Proof.
  apply (untitled_feed_directory quiet_env untitled_feed fresh). reflexivity.
Defined.

(** X20. A feed that parses to a root element without child elements is
    treated like a failed fetch: the prompt prints "Failed to fetch the
    RSS feed. Please try again." and nothing is downloaded. *)
Theorem childless_feed_is_refused E books info i b url status content root s :
  books !! i = Some b ->
  link b = Some url ->
  Bs4.nonempty url = true ->
  http E (trace s) (url +:+ "/feed") = Response status content ->
  ((400 <=? status) && (status <? 600))%Z = false ->
  fromstring E content = Some root ->
  ET.children root = [] ->
  handle_choice E books info (Py.str_of_N (N.of_nat (S i))) s =
    (Returned Break,
     log (EPrint "Failed to fetch the RSS feed. Please try again.")
         (log (EGet (url +:+ "/feed")) s)).
Proof.
  intros Hb Hl Hne Hh Hst Hx Hch.
  rewrite (handle_choice_selects E _ _ _ _ _ Hb), Hl, Hne.
  rewrite (bind_returned _ _ _ _ _
             (fetch_rss_feed_parsed E url s status content root Hh Hst Hx)).
  unfold ET.truthy. rewrite Hch. reflexivity.
Qed.

Lemma childless_feed_is_refused_witness :
  handle_choice hollow_env [Book "Emma" "Jane Austen" (Some "http://x/emma") None] ∅
    (Py.str_of_N (N.of_nat 1)) fresh =
    (Returned Break,
     log (EPrint "Failed to fetch the RSS feed. Please try again.")
         (log (EGet ("http://x/emma" +:+ "/feed")) fresh)).
Proof.
  apply (childless_feed_is_refused hollow_env
           [Book "Emma" "Jane Austen" (Some "http://x/emma") None] ∅ 0
           (Book "Emma" "Jane Austen" (Some "http://x/emma") None)
           "http://x/emma" 200 "<rss/>" (ET.Element "rss" [] None []) fresh);
    reflexivity.
Defined.

(** X21. A line that [str.isdigit] accepts and [int] refuses, such as a
    superscript two, ends the prompt with a [ValueError]: [int(choice)]
    is outside any [try]. *)
Theorem digit_without_value_raises E books info choice s :
  Py.isdigit choice = true ->
  Py.int choice = None ->
  handle_choice E books info choice s = (Raised ValueError, s).
Proof.
  intros Hd Hi. unfold handle_choice, to_int. rewrite Hd, Hi. reflexivity.
Qed.

Lemma digit_without_value_raises_witness :
  Py.isdigit (Utf8.encode_cp 178) = true /\
  handle_choice quiet_env [Book "Emma" "Jane Austen" None None] ∅
    (Utf8.encode_cp 178) fresh = (Raised ValueError, fresh).
Proof.
  split; [reflexivity|].
  apply (digit_without_value_raises quiet_env [Book "Emma" "Jane Austen" None None] ∅
           (Utf8.encode_cp 178) fresh); reflexivity.
Defined.
